(** * Clip transforms of [src/datasets/utils/transforms.py]

    A shallow embedding of the five classes of the module ([Compose],
    [ToTensor], [RandomHorizontalFlip], [Scale], [RandomCrop]) and the
    properties of their [__call__] methods.

    - A numpy array of rank 3 is a record of its [shape] and of its
      elements as nested lists (axis 0 outermost).
    - A PIL image is a record of the (H x W x bands) array that
      [np.array(img)] returns; its [size] is (width, height).
    - Extents, sizes and indices are natural numbers; an element of a
      frame is an integer.
    - Python exceptions are the [Raise] case of [result].
    - The process-global generator of the module [random] is passed
      explicitly: a call that draws takes a generator state and returns
      the next one, also when it raises. *)

From Stdlib Require Import ZArith QArith String Lia.
From stdpp Require Import base option list.

Open Scope string_scope.
Open Scope nat_scope.

(** ** Exceptions and results *)

Inductive exception : Set :=
| TypeError
| ValueError
| IndexError
| AssertionError
| AttributeError
| LibraryError.   (* raised inside cv2 on an object it does not accept *)

Inductive result (A : Type) : Type :=
| Ok (a : A)
| Raise (e : exception).
Arguments Ok {A} a.
Arguments Raise {A} e.

#[global] Instance result_ret : MRet result := @Ok.
#[global] Instance result_bind : MBind result := fun A B f m =>
  match m with
  | Ok a => f a
  | Raise e => Raise e
  end.
#[global] Instance result_fmap : FMap result := fun A B f m =>
  match m with
  | Ok a => Ok (f a)
  | Raise e => Raise e
  end.

(** A list comprehension [[f(img) for img in clip]]: the frames are
    visited in order and the first exception ends the comprehension. *)
Fixpoint comprehension {A B} (f : A -> result B) (l : list A) : result (list B) :=
  match l with
  | [] => Ok []
  | x :: l' => y ← f x; ys ← comprehension f l'; Ok (y :: ys)
  end.

(** [clip[0]] *)
Definition getitem0 {A} (clip : list A) : result A :=
  match clip with
  | [] => Raise IndexError
  | x :: _ => Ok x
  end.

(** ** numpy arrays of rank 3 *)

Record ndarray : Set := mk_ndarray {
  shape : nat * nat * nat;
  data : list (list (list Z))
}.

(** The elements fill the shape. *)
Definition well_shaped (a : ndarray) : bool :=
  let '(d0, d1, d2) := shape a in
  (length (data a) =? d0)
  && forallb (fun row =>
       (length row =? d1) && forallb (fun px => length px =? d2) row) (data a).

(** [a[i, j, k]] for indices inside the array *)
Definition item (a : ndarray) (i j k : nat) : option Z :=
  row ← data a !! i; px ← row !! j; px !! k.

(** [np.fliplr(m)], that is [m[:, ::-1]]: axis 1 is reversed. *)
Definition np_fliplr (m : ndarray) : ndarray :=
  {| shape := shape m; data := map (@rev (list Z)) (data m) |}.

(** [img[y1:y1 + h, x1:x1 + w, :]] for non-negative bounds: a slice is
    clipped to the axis, it never raises. *)
Definition slice {A} (start len : nat) (l : list A) : list A :=
  firstn len (skipn start l).

Definition getitem_window (img : ndarray) (y1 h x1 w : nat) : ndarray :=
  let '(d0, d1, d2) := shape img in
  {| shape := (Nat.min h (d0 - y1), Nat.min w (d1 - x1), d2);
     data := map (slice x1 w) (slice y1 h (data img)) |}.

(** [img.transpose(2, 0, 1)]: the result at (c, y, x) is [img[y, x, c]]. *)
Definition transpose_2_0_1 (img : ndarray) : ndarray :=
  let '(d0, d1, d2) := shape img in
  {| shape := (d2, d0, d1);
     data := map (fun c => map (map (fun px : list Z => default 0%Z (px !! c))) (data img))
                 (seq 0 d2) |}.

(** [img[:, :, ::-1]]: the last axis is reversed. *)
Definition reverse_last_axis (img : ndarray) : ndarray :=
  {| shape := shape img; data := map (map (@rev Z)) (data img) |}.

(** ** PIL images *)

Record image : Set := mk_image { pixels : ndarray }.

(** [np.array(img, copy=False)] *)
Definition np_array (img : image) : ndarray := pixels img.

(** [img.size], (width, height) *)
Definition image_size (img : image) : nat * nat :=
  let '(d0, d1, _) := shape (pixels img) in (d1, d0).

(** [img.transpose(PIL.Image.FLIP_LEFT_RIGHT)] *)
Definition image_flip_left_right (img : image) : image :=
  {| pixels := np_fliplr (pixels img) |}.

(** [img.crop((x_lo, y_lo, x_hi, y_hi))], the box being (left, upper,
    right, lower): the result has the size of the box; what the box
    covers outside the image is zero. *)
Definition image_crop (img : image) (box : nat * nat * nat * nat) : image :=
  let '(x_lo, y_lo, x_hi, y_hi) := box in
  let '(_, _, d2) := shape (pixels img) in
  {| pixels :=
       {| shape := (y_hi - y_lo, x_hi - x_lo, d2);
          data := map (fun y =>
                    map (fun x =>
                      default (replicate d2 0%Z)
                        (row ← data (pixels img) !! y; row !! x))
                      (seq x_lo (x_hi - x_lo)))
                    (seq y_lo (y_hi - y_lo)) |} |}.

(** ** Frames: what a clip may hold *)

Inductive frame : Set :=
| NdArray (a : ndarray)       (* isinstance(img, np.ndarray) *)
| PILImage (i : image)        (* isinstance(img, PIL.Image.Image) *)
| OtherObject.                (* any other object *)

(** ** The generator of the module [random] *)

Class RandomGen (S : Type) : Type := {
  (** [random.random()]: a float in [0.0, 1.0) *)
  random_random : S -> Q * S;
  (** [random.randint(a, b)]: an integer N with a <= N <= b *)
  random_randint : Z -> Z -> S -> result Z * S;
  random_random_range : forall s,
    (0 <= fst (random_random s))%Q /\ (fst (random_random s) < 1)%Q;
  random_randint_range : forall a b s, (a <= b)%Z ->
    exists v, fst (random_randint a b s) = Ok v /\ (a <= v <= b)%Z;
  random_randint_empty : forall a b s, (b < a)%Z ->
    random_randint a b s = (Raise ValueError, s)
}.

(** ** Calls on a frame whose class is not checked

    Inside the comprehensions the source tests the class of [clip[0]]
    only; the call made on each frame meets whatever the clip holds.
    [OtherObject] stands for an object with none of the attributes used
    (such as [None]). *)

(** [np.fliplr(img)]: numpy first converts its argument to an array,
    which a PIL image supports, and refuses an array of rank below 2. *)
Definition np_fliplr_obj (img : frame) : result frame :=
  match img with
  | NdArray a => Ok (NdArray (np_fliplr a))
  | PILImage i => Ok (NdArray (np_fliplr (np_array i)))
  | OtherObject => Raise ValueError
  end.

(** [img.transpose(PIL.Image.FLIP_LEFT_RIGHT)]; on an array of rank 3
    this is [ndarray.transpose(0)], which numpy refuses. *)
Definition transpose_flip_obj (img : frame) : result frame :=
  match img with
  | PILImage i => Ok (PILImage (image_flip_left_right i))
  | NdArray _ => Raise ValueError
  | OtherObject => Raise AttributeError
  end.

(** [img[y1:y1 + h, x1:x1 + w, :]] *)
Definition getitem_obj (y1 h x1 w : nat) (img : frame) : result frame :=
  match img with
  | NdArray a => Ok (NdArray (getitem_window a y1 h x1 w))
  | PILImage _ => Raise TypeError
  | OtherObject => Raise TypeError
  end.

(** [img.crop(box)] *)
Definition crop_obj (box : nat * nat * nat * nat) (img : frame) : result frame :=
  match img with
  | PILImage i => Ok (PILImage (image_crop i box))
  | NdArray _ => Raise AttributeError
  | OtherObject => Raise AttributeError
  end.

(** ** The resizing functions of cv2 and PIL

    [cv2.resize] and [Image.resize] are not part of this module: they
    are taken as given, each may raise. *)

Inductive cv2_flag : Set := INTER_NEAREST | INTER_LINEAR.
Inductive pil_filter : Set := NEAREST | BILINEAR.

Class ResizeLib : Type := {
  cv2_resize : ndarray -> nat * nat -> cv2_flag -> result ndarray;
  image_resize : image -> nat * nat -> pil_filter -> result image
}.

(** [cv2.resize(img, size, interpolation=np_inter)] *)
Definition cv2_resize_obj `{ResizeLib} (size : nat * nat) (np_inter : cv2_flag)
    (img : frame) : result frame :=
  match img with
  | NdArray a => NdArray <$> cv2_resize a size np_inter
  | PILImage _ => Raise LibraryError
  | OtherObject => Raise LibraryError
  end.

(** [img.resize(size, pil_inter)]; on an array this is [ndarray.resize]
    with two positional arguments, which is no shape. *)
Definition resize_obj `{ResizeLib} (size : nat * nat) (pil_inter : pil_filter)
    (img : frame) : result frame :=
  match img with
  | PILImage i => PILImage <$> image_resize i size pil_inter
  | NdArray _ => Raise TypeError
  | OtherObject => Raise AttributeError
  end.

(** ** class Compose *)

Module Compose.

(** A transform is any callable on the value the pipeline carries; it
    may draw from the generator and it may raise. *)
Definition transform (S V : Type) : Type := V -> S -> result V * S.

Record t (S V : Type) : Type := init { transforms : list (transform S V) }.
Arguments init {S V} transforms.
Arguments transforms {S V} _.

(** [for t in self.transforms: clip = t(clip)] *)
Fixpoint loop {S V} (ts : list (transform S V)) (clip : V) (g : S) : result V * S :=
  match ts with
  | [] => (Ok clip, g)
  | t :: ts' =>
      match t clip g with
      | (Ok clip', g') => loop ts' clip' g'
      | (Raise e, g') => (Raise e, g')
      end
  end.

Definition call {S V} (self : t S V) (clip : V) (g : S) : result V * S :=
  loop (transforms self) clip g.

(** A callable that draws nothing, as a transform. *)
Definition pure {S V} (f : V -> result V) : transform S V :=
  fun clip g => (f clip, g).

End Compose.

(** ** class ToTensor *)

(** The buffer [np_clip] and the returned tensor: rank 4, elements as
    rationals (the float rounding of the division is not modelled). *)
Record tensor : Type := mk_tensor {
  tensor_shape : nat * nat * nat * nat;
  tensor_data : list (list (list (list Q)))
}.

(** [t[c, n, y, x]] for indices inside the tensor *)
Definition tensor_item (t : tensor) (c n y x : nat) : option Q :=
  vol ← tensor_data t !! c; plane ← vol !! n; row ← plane !! y; row !! x.

(** [np.zeros([d0, d1, d2, d3])] *)
Definition np_zeros (dims : nat * nat * nat * nat) : tensor :=
  let '(d0, d1, d2, d3) := dims in
  {| tensor_shape := dims;
     tensor_data := replicate d0 (replicate d1 (replicate d2 (replicate d3 0%Q))) |}.

(** Broadcasting of one axis of an assigned value: its extent is the
    extent of the target, or 1 (then its one element is repeated). *)
Definition broadcastable (src dst : nat) : bool := (src =? dst) || (src =? 1).
Definition broadcast_index (src i : nat) : nat := if src =? 1 then 0 else i.

(** [np_clip[:, img_idx, :, :] = value]: numpy raises ValueError when
    [value] does not broadcast to the slot. *)
Definition setitem_frame (np_clip : tensor) (img_idx : nat) (value : ndarray)
    : result tensor :=
  let '(d0, _, d2, d3) := tensor_shape np_clip in
  let '(s0, s1, s2) := shape value in
  if broadcastable s0 d0 && broadcastable s1 d2 && broadcastable s2 d3 then
    Ok {| tensor_shape := tensor_shape np_clip;
          tensor_data :=
            imap (fun c vol =>
              <[img_idx :=
                  map (fun y =>
                    map (fun x =>
                      inject_Z (default 0%Z
                        (item value (broadcast_index s0 c)
                                    (broadcast_index s1 y)
                                    (broadcast_index s2 x))))
                      (seq 0 d3))
                    (seq 0 d2)]> vol)
              (tensor_data np_clip) |}
  else Raise ValueError.

(** [tensor_clip.float().div(255)] *)
Definition tensor_div (t : tensor) (d : Q) : tensor :=
  {| tensor_shape := tensor_shape t;
     tensor_data := map (map (map (map (fun q => q / d)%Q))) (tensor_data t) |}.

Module ToTensor.

Record t : Set := init { channel_nb : nat }.

(** [ToTensor()], with the default [channel_nb=3] *)
Definition default_init : t := init 3.

Definition convert_img (img : ndarray) : ndarray := transpose_2_0_1 img.

(** [for img_idx, img in enumerate(clip): ...] *)
Fixpoint loop (todo : list frame) (img_idx : nat) (np_clip : tensor) : result tensor :=
  match todo with
  | [] => Ok np_clip
  | img :: rest =>
      arr ← match img with
            | NdArray a => Ok a
            | PILImage i => Ok (np_array i)
            | OtherObject => Raise TypeError
            end;
      let arr := convert_img arr in
      np_clip' ← setitem_frame np_clip img_idx (reverse_last_axis arr);
      loop rest (S img_idx) np_clip'
  end.

Definition call (self : t) (clip : list frame) : result tensor :=
  first ← getitem0 clip;
  hw ← match first with
       | NdArray a =>
           let '(h, w, c) := shape a in
           if c =? channel_nb self then Ok (h, w) else Raise AssertionError
       | PILImage i => let '(w, h) := image_size i in Ok (h, w)
       | OtherObject => Raise TypeError
       end;
  let '(h, w) := hw in
  let np_clip := np_zeros (channel_nb self, length clip, h, w) in
  tensor_clip ← loop clip 0 np_clip;
  Ok (tensor_div tensor_clip 255).

End ToTensor.

(** ** class RandomHorizontalFlip *)

Module RandomHorizontalFlip.

Definition call {S} `{RandomGen S} (clip : list frame) (g : S)
    : result (list frame) * S :=
  let '(u, g1) := random_random g in
  if Qlt_le_dec u (1 # 2) then
    (first ← getitem0 clip;
     match first with
     | NdArray _ => comprehension np_fliplr_obj clip
     | PILImage _ => comprehension transpose_flip_obj clip
     | OtherObject => Raise TypeError
     end, g1)
  else (Ok clip, g1).

End RandomHorizontalFlip.

(** ** class Scale *)

Module Scale.

Record t : Set := init { size : nat * nat; interpolation : string }.

(** [Scale(size)], with the default [interpolation='nearest'] *)
Definition default_init (size : nat * nat) : t := init size "nearest".

Definition call `{ResizeLib} (self : t) (clip : list frame) : result (list frame) :=
  first ← getitem0 clip;
  match first with
  | NdArray _ =>
      let np_inter :=
        if String.eqb (interpolation self) "bilinear" then INTER_LINEAR
        else INTER_NEAREST in
      comprehension (cv2_resize_obj (size self) np_inter) clip
  | PILImage _ =>
      let pil_inter :=
        if String.eqb (interpolation self) "bilinear" then NEAREST
        else BILINEAR in
      comprehension (resize_obj (size self) pil_inter) clip
  | OtherObject => Raise TypeError
  end.

End Scale.

(** ** class RandomCrop *)

Module RandomCrop.

(** [size] is (h, w), the extents of the crop. *)
Record t : Set := init { size : nat * nat }.

(** The height and width read from [clip[0]]. *)
Definition first_dims (first : frame) : result (nat * nat) :=
  match first with
  | NdArray a => let '(im_h, im_w, im_c) := shape a in Ok (im_h, im_w)
  | PILImage i => let '(im_w, im_h) := image_size i in Ok (im_h, im_w)
  | OtherObject => Raise TypeError
  end.

Definition call {S} `{RandomGen S} (self : t) (clip : list frame) (g : S)
    : result (list frame) * S :=
  let '(h, w) := size self in
  match first ← getitem0 clip; dims ← first_dims first; Ok (first, dims) with
  | Raise e => (Raise e, g)
  | Ok (first, (im_h, im_w)) =>
      if (im_w <? w) || (im_h <? h) then (Raise ValueError, g)
      else
        match random_randint 0 (Z.of_nat im_w - Z.of_nat w) g with
        | (Raise e, g1) => (Raise e, g1)
        | (Ok x1, g1) =>
            match random_randint 0 (Z.of_nat im_h - Z.of_nat h) g1 with
            | (Raise e, g2) => (Raise e, g2)
            | (Ok y1, g2) =>
                (* both draws are at least 0 *)
                let x1 := Z.to_nat x1 in
                let y1 := Z.to_nat y1 in
                (match first with
                 | NdArray _ => comprehension (getitem_obj y1 h x1 w) clip
                 | PILImage _ =>
                     comprehension (crop_obj (x1, y1, x1 + w, y1 + h)) clip
                 | OtherObject => Raise TypeError
                 end, g2)
            end
        end
  end.

End RandomCrop.

(** ** The transforms that take a clip to a clip *)

Inductive clip_transform : Set :=
| Flip
| Rescale (self : Scale.t)
| Crop (self : RandomCrop.t).

(** [t(clip)] *)
Definition apply_transform {S} `{RandomGen S} `{ResizeLib}
    (t : clip_transform) : Compose.transform S (list frame) :=
  match t with
  | Flip => RandomHorizontalFlip.call
  | Rescale self => Compose.pure (Scale.call self)
  | Crop self => RandomCrop.call self
  end.

(** ** Clips as the transforms expect them *)

Definition frame_array (f : frame) : option ndarray :=
  match f with
  | NdArray a => Some a
  | PILImage i => Some (pixels i)
  | OtherObject => None
  end.

(** The element of a frame at row [y], column [x], channel [k]. *)
Definition frame_item (f : frame) (y x k : nat) : option Z :=
  a ← frame_array f; item a y x k.

(** (H, W, C) of a frame *)
Definition frame_shape (f : frame) : option (nat * nat * nat) :=
  shape <$> frame_array f.

Definition same_class (f0 f : frame) : bool :=
  match f0, f with
  | NdArray _, NdArray _ => true
  | PILImage _, PILImage _ => true
  | _, _ => false
  end.

Definition frame_well_shaped (f : frame) : bool :=
  match frame_array f with
  | Some a => well_shaped a
  | None => false
  end.

Definition shape_eqb (s1 s2 : nat * nat * nat) : bool :=
  let '(a1, b1, c1) := s1 in
  let '(a2, b2, c2) := s2 in
  (a1 =? a2) && (b1 =? b2) && (c1 =? c2).

(** One representation for the whole clip, that of a supported first
    frame, and every frame filled to its shape. *)
Definition uniform_class (clip : list frame) : bool :=
  match clip with
  | [] => false
  | f0 :: _ => forallb (fun f => same_class f0 f && frame_well_shaped f) clip
  end.

(** A clip of the data model: moreover all frames have one shape. *)
Definition uniform_clip (clip : list frame) : bool :=
  match clip with
  | [] => false
  | f0 :: _ =>
      forallb (fun f =>
        same_class f0 f && frame_well_shaped f
        && match frame_shape f0, frame_shape f with
           | Some s0, Some s => shape_eqb s0 s
           | _, _ => false
           end) clip
  end.

(** The buffer [np_clip]: [C] volumes of [T] planes each. *)
Definition buffer_filled (buf : tensor) (C T H W : nat) : Prop :=
  tensor_shape buf = (C, T, H, W) /\
  length (tensor_data buf) = C /\
  Forall (fun vol => length vol = T) (tensor_data buf).

(** Every element of a tensor passes the test [p]. *)
Definition tensor_forallb (p : Q -> bool) (t : tensor) : bool :=
  forallb (forallb (forallb (forallb p))) (tensor_data t).

(** ** The array of a frame, as a frame

    [NdArray (np.array(img))] for an image, the frame itself
    otherwise. *)
Definition as_array (f : frame) : frame :=
  match f with
  | PILImage i => NdArray (np_array i)
  | _ => f
  end.

(** Every frame of the clip is of the class of its first frame, which
    is one of the two supported classes (no condition on the shapes or
    on the elements). *)
Definition one_class (clip : list frame) : bool :=
  match clip with
  | [] => false
  | f0 :: _ => forallb (same_class f0) clip
  end.

(** The left-right mirror of a frame, in the class of the frame. *)
Definition mirror (f : frame) : frame :=
  match f with
  | NdArray a => NdArray (np_fliplr a)
  | PILImage i => PILImage (image_flip_left_right i)
  | OtherObject => OtherObject
  end.

(** ** A generator that replays recorded draws

    The state is the list of raw draws still to come (0 once it is
    used up): [random()] returns the thousandths of the next one,
    [randint(a, b)] reduces it into the range. *)

Definition replay_random (s : list nat) : Q * list nat :=
  match s with
  | [] => (0%Q, [])
  | u :: s' => ((Z.of_nat (u mod 1000) # 1000)%Q, s')
  end.

Definition replay_randint (a b : Z) (s : list nat) : result Z * list nat :=
  if (b <? a)%Z then (Raise ValueError, s)
  else match s with
       | [] => (Ok a, [])
       | u :: s' => (Ok (a + Z.of_nat u mod (b - a + 1))%Z, s')
       end.

(** ** Resizing by sampling the nearest source element, for both
    libraries and whatever the filter; an empty target is refused. *)

Definition sample_array (a : ndarray) (size : nat * nat) : result ndarray :=
  let '(w', h') := size in
  let '(d0, d1, d2) := shape a in
  if (w' =? 0) || (h' =? 0) || (d0 =? 0) || (d1 =? 0) then Raise LibraryError
  else
    Ok {| shape := (h', w', d2);
          data := map (fun y =>
                    map (fun x =>
                      default (replicate d2 0%Z)
                        (row ← data a !! (y * d0 / h'); row !! (x * d1 / w')))
                      (seq 0 w'))
                    (seq 0 h') |}.

#[local] Instance sampling_lib : ResizeLib := {|
  cv2_resize a size _ := sample_array a size;
  image_resize i size _ := mk_image <$> sample_array (pixels i) size
|}.

(** ** Sample frames *)

(** One row of two pixels: (10, 20, 30) on the left, (40, 50, 60) on
    the right. *)
Definition two_pixel_array : ndarray :=
  {| shape := (1, 2, 3); data := [[[10; 20; 30]; [40; 50; 60]]]%Z |}.

(** A frame of shape (h, w, c) holding [v] everywhere. *)
Definition constant_array (h w c : nat) (v : Z) : ndarray :=
  {| shape := (h, w, c); data := replicate h (replicate w (replicate c v)) |}.

(** * Properties *)

Lemma replay_random_range (s : list nat) :
  (0 <= fst (replay_random s))%Q /\ (fst (replay_random s) < 1)%Q.
Proof.
  destruct s as [|u s]; simpl.
  - split; [apply Qle_refl | reflexivity].
  - pose proof (Nat.mod_upper_bound u 1000 ltac:(lia)) as Hu.
    unfold Qle, Qlt; simpl. lia.
Qed.

Lemma replay_randint_range (a b : Z) (s : list nat) :
  (a <= b)%Z ->
  exists v, fst (replay_randint a b s) = Ok v /\ (a <= v <= b)%Z.
Proof.
  intros Hab. unfold replay_randint.
  destruct (Z.ltb_spec b a) as [Hlt|_]; [lia|].
  destruct s as [|u s]; simpl.
  - exists a. split; [reflexivity | lia].
  - eexists; split; [reflexivity|].
    pose proof (Z.mod_pos_bound (Z.of_nat u) (b - a + 1) ltac:(lia)). lia.
Qed.

Lemma replay_randint_empty (a b : Z) (s : list nat) :
  (b < a)%Z -> replay_randint a b s = (Raise ValueError, s).
Proof.
  intros Hlt. unfold replay_randint.
  destruct (Z.ltb_spec b a); [reflexivity | lia].
Qed.

#[local] Instance replay_gen : RandomGen (list nat) := {|
  random_random := replay_random;
  random_randint := replay_randint;
  random_random_range := replay_random_range;
  random_randint_range := replay_randint_range;
  random_randint_empty := replay_randint_empty
|}.

(** ** Comprehensions *)

Lemma comprehension_length {A B} (f : A -> result B) (l : list A) (out : list B) :
  comprehension f l = Ok out -> length out = length l.
Proof.
  revert out. induction l as [|x l IH]; intros out; simpl.
  - intros [= <-]. reflexivity.
  - destruct (f x) as [y|e]; simpl; [|discriminate].
    destruct (comprehension f l) as [ys|e]; simpl; [|discriminate].
    intros [= <-]. simpl. f_equal. apply IH. reflexivity.
Qed.

Lemma comprehension_raise {A B} (f : A -> result B) (l : list A) (e : exception) :
  comprehension f l = Raise e -> exists x, x ∈ l /\ f x = Raise e.
Proof.
  induction l as [|x l IH]; simpl; [discriminate|].
  destruct (f x) as [y|e'] eqn:Hx; simpl.
  - destruct (comprehension f l) as [ys|e'']; simpl; [discriminate|].
    intros [= ->]. destruct (IH eq_refl) as (x' & Hin & Hx').
    exists x'. split; [by right | done].
  - intros [= ->]. exists x. split; [by left | done].
Qed.

Lemma comprehension_lookup {A B} (f : A -> result B) (l : list A) (out : list B)
    (n : nat) (x : A) :
  comprehension f l = Ok out -> l !! n = Some x ->
  exists y, out !! n = Some y /\ f x = Ok y.
Proof.
  revert out n. induction l as [|x0 l IH]; intros out n; simpl; [discriminate|].
  destruct (f x0) as [y0|e] eqn:Hx0; simpl; [|discriminate].
  destruct (comprehension f l) as [ys|e]; simpl; [|discriminate].
  intros [= <-]. destruct n as [|n]; simpl.
  - intros [= <-]. eauto.
  - intros Hx. exact (IH ys n eq_refl Hx).
Qed.

Lemma comprehension_returns {A B} (f : A -> result B) (l : list A) :
  Forall (fun x => exists y, f x = Ok y) l -> exists out, comprehension f l = Ok out.
Proof.
  induction 1 as [|x l [y Hy] _ [out IH]]; simpl; [eauto|].
  rewrite Hy, IH. simpl. eauto.
Qed.

(** ** Lists as axes *)

Lemma lookup_map {A B} (f : A -> B) (l : list A) (i : nat) :
  map f l !! i = f <$> l !! i.
Proof.
  revert i. induction l as [|x l IH]; intros [|i]; simpl; auto.
Qed.

Lemma lookup_rev {A} (l : list A) (i : nat) :
  i < length l -> rev l !! i = l !! (length l - S i).
Proof.
  intros Hi. rewrite rev_alt. apply (reverse_lookup l i Hi).
Qed.

Lemma lookup_slice {A} (start len : nat) (l : list A) (i : nat) :
  i < len -> slice start len l !! i = l !! (start + i).
Proof.
  intros Hi. unfold slice. rewrite lookup_take_lt by exact Hi. apply lookup_drop.
Qed.

Lemma length_slice {A} (start len : nat) (l : list A) :
  length (slice start len l) = Nat.min len (length l - start).
Proof.
  unfold slice. rewrite length_take, length_drop. reflexivity.
Qed.

(** ** Arrays *)

Lemma well_shaped_spec (a : ndarray) (d0 d1 d2 : nat) :
  shape a = (d0, d1, d2) ->
  well_shaped a = true <->
  length (data a) = d0 /\
  Forall (fun row => length row = d1 /\ Forall (fun px => length px = d2) row) (data a).
Proof.
  intros Hs. unfold well_shaped. rewrite Hs.
  rewrite andb_true_iff, Nat.eqb_eq, <- Is_true_true, forallb_True.
  apply and_iff_compat_l. apply Forall_iff. intros row.
  rewrite Is_true_true, andb_true_iff, Nat.eqb_eq, <- Is_true_true, forallb_True.
  apply and_iff_compat_l. apply Forall_iff. intros px.
  rewrite Is_true_true. apply Nat.eqb_eq.
Qed.

Lemma well_shaped_row (a : ndarray) (d0 d1 d2 y : nat) (row : list (list Z)) :
  shape a = (d0, d1, d2) -> well_shaped a = true ->
  data a !! y = Some row -> length row = d1.
Proof.
  intros Hs Hw Hy. apply (well_shaped_spec a d0 d1 d2 Hs) in Hw as [_ Hrows].
  rewrite Forall_lookup in Hrows. exact (proj1 (Hrows y row Hy)).
Qed.

Lemma item_np_fliplr (a : ndarray) (d0 d1 d2 y x k : nat) :
  shape a = (d0, d1, d2) -> well_shaped a = true -> x < d1 ->
  item (np_fliplr a) y x k = item a y (d1 - 1 - x) k.
Proof.
  intros Hs Hw Hx. unfold item, np_fliplr; cbn [data].
  rewrite lookup_map. destruct (data a !! y) as [row|] eqn:Hy; [|reflexivity].
  cbn [fmap option_fmap option_map mbind option_bind].
  pose proof (well_shaped_row a d0 d1 d2 y row Hs Hw Hy) as Hlen.
  rewrite lookup_rev by lia. rewrite Hlen.
  replace (d1 - S x) with (d1 - 1 - x) by lia. reflexivity.
Qed.

Lemma well_shaped_np_fliplr (a : ndarray) :
  well_shaped a = true -> well_shaped (np_fliplr a) = true.
Proof.
  destruct (shape a) as [[d0 d1] d2] eqn:Hs. intros Hw.
  apply (well_shaped_spec a d0 d1 d2 Hs) in Hw as [Hlen Hrows].
  apply (well_shaped_spec (np_fliplr a) d0 d1 d2 Hs). cbn [np_fliplr data].
  split; [by rewrite length_map|].
  apply List.Forall_map. eapply Forall_impl; [exact Hrows|].
  intros row [Hl Hpx]. cbv beta. split; [by rewrite length_rev|].
  by apply List.Forall_rev.
Qed.

Lemma shape_getitem_window (a : ndarray) (d0 d1 d2 y1 h x1 w : nat) :
  shape a = (d0, d1, d2) -> y1 + h <= d0 -> x1 + w <= d1 ->
  shape (getitem_window a y1 h x1 w) = (h, w, d2).
Proof.
  intros Hs Hy Hx. unfold getitem_window. rewrite Hs. cbn [shape].
  repeat f_equal; lia.
Qed.

Lemma item_getitem_window (a : ndarray) (y1 h x1 w y x k : nat) :
  y < h -> x < w ->
  item (getitem_window a y1 h x1 w) y x k = item a (y1 + y) (x1 + x) k.
Proof.
  intros Hy Hx. unfold item, getitem_window.
  destruct (shape a) as [[d0 d1] d2]. cbn [data].
  rewrite lookup_map, lookup_slice by exact Hy.
  destruct (data a !! (y1 + y)) as [row|]; [|reflexivity].
  cbn [fmap option_fmap option_map mbind option_bind].
  rewrite lookup_slice by exact Hx. reflexivity.
Qed.

Lemma well_shaped_getitem_window (a : ndarray) (y1 h x1 w : nat) :
  well_shaped a = true -> well_shaped (getitem_window a y1 h x1 w) = true.
Proof.
  destruct (shape a) as [[d0 d1] d2] eqn:Hs. intros Hw.
  apply (well_shaped_spec a d0 d1 d2 Hs) in Hw as [Hlen Hrows].
  apply (well_shaped_spec _ (Nat.min h (d0 - y1)) (Nat.min w (d1 - x1)) d2).
  { unfold getitem_window. rewrite Hs. reflexivity. }
  unfold getitem_window. rewrite Hs. cbn [data].
  split; [rewrite length_map, length_slice, Hlen; reflexivity|].
  apply List.Forall_map. unfold slice.
  apply Forall_take, Forall_drop. eapply Forall_impl; [exact Hrows|].
  intros row [Hl Hpx]. cbv beta.
  split; [rewrite length_take, length_drop, Hl; reflexivity|].
  by apply Forall_take, Forall_drop.
Qed.

Lemma shape_image_crop (i : image) (d0 d1 d2 x1 y1 w h : nat) :
  shape (pixels i) = (d0, d1, d2) ->
  shape (pixels (image_crop i (x1, y1, x1 + w, y1 + h))) = (h, w, d2).
Proof.
  intros Hs. unfold image_crop. rewrite Hs. cbn [pixels shape].
  repeat f_equal; lia.
Qed.

Lemma item_image_crop (i : image) (d0 d1 d2 x1 y1 w h y x k : nat) :
  shape (pixels i) = (d0, d1, d2) -> well_shaped (pixels i) = true ->
  y1 + h <= d0 -> x1 + w <= d1 -> y < h -> x < w ->
  item (pixels (image_crop i (x1, y1, x1 + w, y1 + h))) y x k =
  item (pixels i) (y1 + y) (x1 + x) k.
Proof.
  intros Hs Hw Hh Hwd Hy Hx. unfold item, image_crop. rewrite Hs. cbn [pixels data].
  replace (y1 + h - y1) with h by lia. replace (x1 + w - x1) with w by lia.
  rewrite lookup_map, lookup_seq_lt by exact Hy.
  cbn [fmap option_fmap option_map mbind option_bind].
  rewrite lookup_map, lookup_seq_lt by exact Hx.
  cbn [fmap option_fmap option_map mbind option_bind].
  pose proof (proj1 (well_shaped_spec _ d0 d1 d2 Hs) Hw) as [Hlen _].
  destruct (lookup_lt_is_Some_2 (data (pixels i)) (y1 + y) ltac:(lia)) as [row Hrow].
  rewrite Hrow. cbn [mbind option_bind].
  pose proof (well_shaped_row _ d0 d1 d2 _ row Hs Hw Hrow) as Hl.
  destruct (lookup_lt_is_Some_2 row (x1 + x) ltac:(lia)) as [px Hpx].
  rewrite Hpx. reflexivity.
Qed.

Lemma well_shaped_image_crop (i : image) (box : nat * nat * nat * nat) :
  well_shaped (pixels i) = true -> well_shaped (pixels (image_crop i box)) = true.
Proof.
  destruct box as [[[x_lo y_lo] x_hi] y_hi].
  destruct (shape (pixels i)) as [[d0 d1] d2] eqn:Hs. intros Hw.
  apply (well_shaped_spec _ d0 d1 d2 Hs) in Hw as [Hlen Hrows].
  apply (well_shaped_spec _ (y_hi - y_lo) (x_hi - x_lo) d2).
  { unfold image_crop. rewrite Hs. reflexivity. }
  unfold image_crop. rewrite Hs. cbn [pixels data].
  split; [by rewrite length_map, length_seq|].
  apply List.Forall_map, Forall_forall. intros y _. cbv beta.
  split; [by rewrite length_map, length_seq|].
  apply List.Forall_map, Forall_forall. intros x _. cbv beta.
  destruct (data (pixels i) !! y) as [row|] eqn:Hrow; cbn [mbind option_bind default];
    [|by rewrite length_replicate].
  destruct (row !! x) as [px|] eqn:Hpx; cbn [default]; [|by rewrite length_replicate].
  rewrite Forall_lookup in Hrows. destruct (Hrows y row Hrow) as [_ Hp].
  rewrite Forall_lookup in Hp. exact (Hp x px Hpx).
Qed.

(** ** Clips of one class and shape *)

Lemma shape_eqb_eq (s1 s2 : nat * nat * nat) : shape_eqb s1 s2 = true <-> s1 = s2.
Proof.
  destruct s1 as [[a1 b1] c1], s2 as [[a2 b2] c2]. unfold shape_eqb.
  rewrite !andb_true_iff, !Nat.eqb_eq. split.
  - intros [[-> ->] ->]. reflexivity.
  - intros [= -> -> ->]. auto.
Qed.

Lemma uniform_class_spec (clip : list frame) :
  uniform_class clip = true ->
  exists f0 rest, clip = f0 :: rest /\
    Forall (fun f => same_class f0 f = true /\ frame_well_shaped f = true) clip.
Proof.
  destruct clip as [|f0 rest]; [discriminate|]. unfold uniform_class.
  intros Hu. exists f0, rest. split; [reflexivity|].
  apply Is_true_true, forallb_True in Hu.
  eapply Forall_impl; [exact Hu|]. intros f Hf. cbv beta in Hf.
  apply Is_true_true, andb_true_iff in Hf. exact Hf.
Qed.

Lemma uniform_clip_spec (clip : list frame) :
  uniform_clip clip = true ->
  exists f0 rest s0, clip = f0 :: rest /\ frame_shape f0 = Some s0 /\
    Forall (fun f => same_class f0 f = true /\ frame_well_shaped f = true
                     /\ frame_shape f = Some s0) clip.
Proof.
  destruct clip as [|f0 rest]; [discriminate|]. unfold uniform_clip.
  intros Hu. apply Is_true_true, forallb_True in Hu.
  assert (exists s0, frame_shape f0 = Some s0) as [s0 Hs0].
  { apply Forall_inv in Hu. apply Is_true_true in Hu.
    rewrite !andb_true_iff in Hu. destruct Hu as [_ Hu].
    destruct (frame_shape f0); [eauto | discriminate]. }
  exists f0, rest, s0. split; [reflexivity|]. split; [exact Hs0|].
  eapply Forall_impl; [exact Hu|]. intros f Hf. cbv beta in Hf.
  apply Is_true_true in Hf. rewrite Hs0 in Hf.
  rewrite !andb_true_iff in Hf. destruct Hf as [[Hc Hw] Hs].
  destruct (frame_shape f) as [s|]; [|discriminate].
  apply shape_eqb_eq in Hs. subst s. auto.
Qed.

(** ** The buffer of ToTensor *)

Lemma broadcast_index_same (s i : nat) : i < s -> broadcast_index s i = i.
Proof. unfold broadcast_index. destruct (Nat.eqb_spec s 1); lia. Qed.

Lemma broadcastable_refl (s : nat) : broadcastable s s = true.
Proof. unfold broadcastable. by rewrite Nat.eqb_refl. Qed.

Lemma np_zeros_filled (C T H W : nat) : buffer_filled (np_zeros (C, T, H, W)) C T H W.
Proof.
  unfold buffer_filled, np_zeros; cbn [tensor_shape tensor_data].
  split; [reflexivity|]. split; [apply length_replicate|].
  apply Forall_replicate. apply length_replicate.
Qed.

Lemma setitem_frame_spec (buf : tensor) (idx : nat) (value : ndarray) (C T H W : nat) :
  buffer_filled buf C T H W -> shape value = (C, H, W) -> idx < T ->
  exists buf', setitem_frame buf idx value = Ok buf' /\
    buffer_filled buf' C T H W /\
    forall c n y x,
      (n <> idx -> tensor_item buf' c n y x = tensor_item buf c n y x) /\
      (c < C -> y < H -> x < W ->
         tensor_item buf' c idx y x =
         Some (inject_Z (default 0%Z (item value c y x)))).
Proof.
  intros (Hsh & Hlen & Hvol) Hv Hidx. unfold setitem_frame. rewrite Hsh, Hv.
  rewrite !broadcastable_refl. cbn [andb]. eexists; split; [reflexivity|].
  split.
  { unfold buffer_filled; cbn [tensor_shape tensor_data].
    split; [reflexivity|]. split; [by rewrite length_imap|].
    apply Forall_lookup. intros c vol' Hc.
    apply list_lookup_imap_Some in Hc as (vol & Hc & ->).
    rewrite length_insert. rewrite Forall_lookup in Hvol. by eapply Hvol. }
  intros c n y x. unfold tensor_item; cbn [tensor_data].
  rewrite list_lookup_imap. split.
  - intros Hn. destruct (tensor_data buf !! c) as [vol|]; [|reflexivity].
    cbn [fmap option_fmap option_map mbind option_bind].
    by rewrite list_lookup_insert_ne.
  - intros Hc Hy Hx.
    destruct (lookup_lt_is_Some_2 (tensor_data buf) c ltac:(lia)) as [vol Hvc].
    rewrite Hvc. cbn [fmap option_fmap option_map mbind option_bind].
    rewrite Forall_lookup in Hvol. pose proof (Hvol c vol Hvc) as Hl.
    rewrite list_lookup_insert_eq by lia. cbn [mbind option_bind].
    rewrite lookup_map, lookup_seq_lt by exact Hy.
    cbn [fmap option_fmap option_map mbind option_bind].
    rewrite lookup_map, lookup_seq_lt by exact Hx.
    cbn [fmap option_fmap option_map plus].
    by rewrite !broadcast_index_same.
Qed.

(** What [convert_img] followed by [[:, :, ::-1]] holds at (c, y, x):
    the element of the frame at row [y], column [W - 1 - x], channel
    [c]. *)
Lemma item_converted (a : ndarray) (H W C c y x : nat) :
  shape a = (H, W, C) -> well_shaped a = true -> c < C -> y < H -> x < W ->
  exists v, item a y (W - 1 - x) c = Some v /\
    item (reverse_last_axis (ToTensor.convert_img a)) c y x = Some v.
Proof.
  intros Hs Hw Hc Hy Hx.
  pose proof (proj1 (well_shaped_spec a H W C Hs) Hw) as [Hlen Hrows].
  destruct (lookup_lt_is_Some_2 (data a) y ltac:(lia)) as [row Hrow].
  rewrite Forall_lookup in Hrows. destruct (Hrows y row Hrow) as [Hl Hpxs].
  destruct (lookup_lt_is_Some_2 row (W - 1 - x) ltac:(lia)) as [px Hpx].
  rewrite Forall_lookup in Hpxs. pose proof (Hpxs _ px Hpx) as Hlp.
  destruct (lookup_lt_is_Some_2 px c ltac:(lia)) as [v Hv].
  exists v. split.
  { unfold item. rewrite Hrow; cbn [mbind option_bind]. by rewrite Hpx. }
  unfold item, reverse_last_axis, ToTensor.convert_img, transpose_2_0_1.
  rewrite Hs. cbn [data].
  rewrite !lookup_map, lookup_seq_lt by exact Hc.
  cbn [fmap option_fmap option_map mbind option_bind plus].
  rewrite !lookup_map, Hrow.
  cbn [fmap option_fmap option_map mbind option_bind].
  rewrite lookup_rev by (rewrite length_map; lia).
  rewrite length_map, Hl, lookup_map.
  replace (W - S x) with (W - 1 - x) by lia. rewrite Hpx.
  cbn [fmap option_fmap option_map]. by rewrite Hv.
Qed.

Lemma shape_converted (a : ndarray) (H W C : nat) :
  shape a = (H, W, C) ->
  shape (reverse_last_axis (ToTensor.convert_img a)) = (C, H, W).
Proof.
  intros Hs. unfold reverse_last_axis, ToTensor.convert_img, transpose_2_0_1.
  by rewrite Hs.
Qed.

Lemma tensor_item_div (t : tensor) (d : Q) (c n y x : nat) :
  tensor_item (tensor_div t d) c n y x = (fun q => q / d)%Q <$> tensor_item t c n y x.
Proof.
  unfold tensor_item, tensor_div; cbn [tensor_data].
  rewrite lookup_map. destruct (tensor_data t !! c) as [vol|]; [|reflexivity].
  cbn [fmap option_fmap option_map mbind option_bind].
  rewrite lookup_map. destruct (vol !! n) as [plane|]; [|reflexivity].
  cbn [fmap option_fmap option_map mbind option_bind].
  rewrite lookup_map. destruct (plane !! y) as [row|]; [|reflexivity].
  cbn [fmap option_fmap option_map mbind option_bind].
  by rewrite lookup_map.
Qed.

(** The frames [todo], stored from time step [idx] on. *)
Lemma ToTensor_loop_spec (H W C T : nat) (todo : list frame) :
  forall (idx : nat) (buf : tensor),
  buffer_filled buf C T H W ->
  idx + length todo <= T ->
  Forall (fun f => frame_well_shaped f = true /\ frame_shape f = Some (H, W, C)) todo ->
  exists out, ToTensor.loop todo idx buf = Ok out /\
    buffer_filled out C T H W /\
    forall c n y x,
      (n < idx -> tensor_item out c n y x = tensor_item buf c n y x) /\
      (forall fr, todo !! n = Some fr -> c < C -> y < H -> x < W ->
         exists v, frame_item fr y (W - 1 - x) c = Some v /\
           tensor_item out c (idx + n) y x = Some (inject_Z v)).
Proof.
  induction todo as [|img rest IH]; intros idx buf Hbuf Hlen Hall.
  - exists buf. split; [reflexivity|]. split; [exact Hbuf|].
    intros c n y x. split; [reflexivity|]. intros fr Hfr. discriminate Hfr.
  - apply Forall_cons in Hall as [[Hws Hsh] Hall]. cbn [length] in Hlen.
    assert (exists arr, frame_array img = Some arr /\
              (match img with
               | NdArray a => Ok a
               | PILImage i => Ok (np_array i)
               | OtherObject => Raise TypeError
               end) = Ok arr) as (arr & Harr & Hconv).
    { destruct img; [eauto | eauto | discriminate Hws]. }
    unfold frame_well_shaped in Hws. unfold frame_shape in Hsh.
    rewrite Harr in Hws, Hsh. injection Hsh as Hsh.
    destruct (setitem_frame_spec buf idx (reverse_last_axis (ToTensor.convert_img arr))
                C T H W Hbuf (shape_converted arr H W C Hsh) ltac:(lia))
      as (buf' & Hset & Hbuf' & Hitems).
    destruct (IH (Datatypes.S idx) buf' Hbuf' ltac:(lia) Hall) as (out & Hloop & Hout & Hspec).
    exists out. cbn [ToTensor.loop]. rewrite Hconv. cbn [mbind result_bind].
    rewrite Hset. cbn [mbind result_bind]. split; [exact Hloop|].
    split; [exact Hout|]. intros c n y x. split.
    + intros Hn. rewrite (proj1 (Hspec c n y x)) by lia.
      apply (proj1 (Hitems c n y x)). lia.
    + intros fr Hfr Hc Hy Hx. destruct n as [|n].
      * injection Hfr as <-. rewrite Nat.add_0_r.
        rewrite (proj1 (Hspec c idx y x)) by lia.
        rewrite (proj2 (Hitems c idx y x) Hc Hy Hx).
        destruct (item_converted arr H W C c y x Hsh Hws Hc Hy Hx) as (v & Hv & Hcv).
        exists v. unfold frame_item. rewrite Harr. cbn [mbind option_bind].
        split; [exact Hv|]. by rewrite Hcv.
      * cbn [lookup list_lookup] in Hfr.
        destruct (proj2 (Hspec c n y x) fr Hfr Hc Hy Hx) as (v & Hv & Ho).
        exists v. split; [exact Hv|].
        replace (idx + Datatypes.S n) with (Datatypes.S idx + n) by lia. exact Ho.
Qed.

(** What [ToTensor] returns on a clip of the data model whose frames
    have [channel_nb] channels: a tensor of shape (C, T, H, W) whose
    element at (c, n, y, x) is the element of frame [n] at row [y],
    column [W - 1 - x], channel [c], divided by 255. The channel keeps
    its place; the columns are reversed. *)
Lemma ToTensor_call_uniform (self : ToTensor.t) (clip : list frame) (first : frame)
    (H W : nat) :
  uniform_clip clip = true ->
  getitem0 clip = Ok first ->
  frame_shape first = Some (H, W, ToTensor.channel_nb self) ->
  exists out, ToTensor.call self clip = Ok out /\
    tensor_shape out = (ToTensor.channel_nb self, length clip, H, W) /\
    forall c n y x fr, clip !! n = Some fr ->
      c < ToTensor.channel_nb self -> y < H -> x < W ->
      exists v, frame_item fr y (W - 1 - x) c = Some v /\
        tensor_item out c n y x = Some (inject_Z v / 255)%Q.
Proof.
  intros Hu Hfirst Hshape.
  destruct (uniform_clip_spec clip Hu) as (f0 & rest & s0 & -> & Hs0 & Hall).
  cbn [getitem0] in Hfirst. injection Hfirst as <-.
  rewrite Hs0 in Hshape. injection Hshape as ->.
  set (C := ToTensor.channel_nb self) in *.
  destruct (ToTensor_loop_spec H W C (length (f0 :: rest)) (f0 :: rest) 0
              (np_zeros (C, length (f0 :: rest), H, W)) (np_zeros_filled _ _ _ _)
              ltac:(lia))
    as (buf & Hloop & (Hbs & _) & Hspec).
  { eapply Forall_impl; [exact Hall|]. intros f (_ & Hw & Hs). auto. }
  exists (tensor_div buf 255). split.
  - unfold ToTensor.call. cbn [getitem0 mbind result_bind]. fold C.
    destruct f0 as [a|i|]; cbn in Hs0; [| |discriminate].
    + injection Hs0 as ->. rewrite Nat.eqb_refl. cbn [mbind result_bind].
      rewrite Hloop. reflexivity.
    + injection Hs0 as Hsi. unfold image_size. rewrite Hsi.
      cbn [mbind result_bind]. rewrite Hloop. reflexivity.
  - split; [exact Hbs|]. intros c n y x fr Hfr Hc Hy Hx.
    destruct (proj2 (Hspec c n y x) fr Hfr Hc Hy Hx) as (v & Hv & Hitem).
    exists v. split; [exact Hv|].
    rewrite tensor_item_div. cbn [plus] in Hitem. by rewrite Hitem.
Qed.

(** An element in [0, 255] divided by 255 lies in [0, 1]. *)
Lemma scaled_in_unit_interval (v : Z) :
  (0 <= v <= 255)%Z -> (0 <= inject_Z v / 255)%Q /\ (inject_Z v / 255 <= 1)%Q.
Proof.
  intros Hv. unfold Qle, Qdiv, Qmult, Qinv, inject_Z; simpl. lia.
Qed.

(** On such a clip with elements in [0, 255], every element of the
    tensor lies in [0, 1]. *)
Lemma ToTensor_call_range (self : ToTensor.t) (clip : list frame) (first : frame)
    (H W : nat) :
  uniform_clip clip = true ->
  getitem0 clip = Ok first ->
  frame_shape first = Some (H, W, ToTensor.channel_nb self) ->
  (forall n fr y x k v, clip !! n = Some fr -> frame_item fr y x k = Some v ->
     (0 <= v <= 255)%Z) ->
  exists out, ToTensor.call self clip = Ok out /\
    forall c n y x, c < ToTensor.channel_nb self -> n < length clip -> y < H -> x < W ->
      exists q, tensor_item out c n y x = Some q /\ (0 <= q)%Q /\ (q <= 1)%Q.
Proof.
  intros Hu Hfirst Hshape Hrange.
  destruct (ToTensor_call_uniform self clip first H W Hu Hfirst Hshape)
    as (out & Hcall & _ & Hitems).
  exists out. split; [exact Hcall|]. intros c n y x Hc Hn Hy Hx.
  destruct (lookup_lt_is_Some_2 clip n Hn) as [fr Hfr].
  destruct (Hitems c n y x fr Hfr Hc Hy Hx) as (v & Hv & Hq).
  exists (inject_Z v / 255)%Q. split; [exact Hq|].
  apply scaled_in_unit_interval. exact (Hrange n fr y _ c v Hfr Hv).
Qed.

(** ** Compose *)

Lemma Compose_loop_app {S V} (ts1 ts2 : list (Compose.transform S V)) (c : V) (g : S) :
  Compose.loop (ts1 ++ ts2) c g =
  match Compose.loop ts1 c g with
  | (Ok c', g') => Compose.loop ts2 c' g'
  | (Raise e, g') => (Raise e, g')
  end.
Proof.
  revert c g. induction ts1 as [|t ts1 IH]; intros c g; simpl; [reflexivity|].
  destruct (t c g) as [[c'|e] g']; [apply IH | reflexivity].
Qed.

(** C7: [Compose([])] returns the clip it is given, unchanged, and
    [Compose([A, B])] applied to [c] is [B(A(c))]: [A] runs first, [B]
    runs on the result of [A] and from the generator state [A] left,
    and an exception of [A] ends the call before [B] runs. In general
    the last transform of the list runs on what the transforms before
    it return. *)
Theorem Compose_folds_left_to_right {S V} (A B : Compose.transform S V)
    (ts : list (Compose.transform S V)) (c : V) (g : S) :
  Compose.call (Compose.init []) c g = (Ok c, g) /\
  Compose.call (Compose.init [A; B]) c g =
    match A c g with
    | (Ok c', g') => B c' g'
    | (Raise e, g') => (Raise e, g')
    end /\
  Compose.call (Compose.init (ts ++ [B])) c g =
    match Compose.call (Compose.init ts) c g with
    | (Ok c', g') => B c' g'
    | (Raise e, g') => (Raise e, g')
    end.
Proof.
  split; [reflexivity|]. split.
  - unfold Compose.call; simpl.
    destruct (A c g) as [[c'|e] g']; [|reflexivity].
    destruct (B c' g') as [[c''|e] g'']; reflexivity.
  - unfold Compose.call; cbn [Compose.transforms].
    rewrite Compose_loop_app.
    destruct (Compose.loop ts c g) as [[c'|e] g']; [|reflexivity].
    simpl. destruct (B c' g') as [[c''|e] g'']; reflexivity.
Qed.

Section Transforms.

Context {S : Type} `{RandomGen S} `{ResizeLib}.

(** ** Scale *)

(** C3: the interpolation argument reaches the two libraries with
    opposite meanings. With ["bilinear"], an array clip is resized by
    [cv2.resize] with INTER_LINEAR and an image clip by [Image.resize]
    with the NEAREST filter; with any other string, an array clip is
    resized with INTER_NEAREST and an image clip with the BILINEAR
    filter. *)
Theorem Scale_interpolation_asymmetric (size : nat * nat) (interp : string)
    (a : ndarray) (i : image) (rest : list frame) :
  let self := Scale.init size interp in
  (interp = "bilinear" ->
     Scale.call self (NdArray a :: rest) =
       comprehension (cv2_resize_obj size INTER_LINEAR) (NdArray a :: rest) /\
     Scale.call self (PILImage i :: rest) =
       comprehension (resize_obj size NEAREST) (PILImage i :: rest)) /\
  (interp <> "bilinear" ->
     Scale.call self (NdArray a :: rest) =
       comprehension (cv2_resize_obj size INTER_NEAREST) (NdArray a :: rest) /\
     Scale.call self (PILImage i :: rest) =
       comprehension (resize_obj size BILINEAR) (PILImage i :: rest)).
Proof.
  intros self. unfold Scale.call, self; cbn [getitem0 mbind result_bind Scale.interpolation Scale.size].
  split; intros Hi.
  - subst interp. split; reflexivity.
  - apply String.eqb_neq in Hi. rewrite Hi. split; reflexivity.
Qed.

(** ** RandomHorizontalFlip *)

(** C4, as the code has it: on a clip whose first frame is of neither
    supported class, the call first draws; it raises TypeError when
    the draw is below 0.5, and otherwise returns the clip as it is,
    with no error. *)
Theorem RandomHorizontalFlip_unsupported (rest : list frame) (g : S) :
  let clip := OtherObject :: rest in
  let u := fst (random_random g) in
  let g1 := snd (random_random g) in
  ((u < 1 # 2)%Q -> RandomHorizontalFlip.call clip g = (Raise TypeError, g1)) /\
  ((1 # 2 <= u)%Q -> RandomHorizontalFlip.call clip g = (Ok clip, g1)).
Proof.
  intros clip u g1. unfold RandomHorizontalFlip.call, u, g1, clip.
  destruct (random_random g) as [v g']; simpl.
  destruct (Qlt_le_dec v (1 # 2)) as [Hlt|Hle]; split; intros Hv; try reflexivity.
  - exfalso. exact (Qlt_not_le _ _ Hlt Hv).
  - exfalso. exact (Qlt_not_le _ _ Hv Hle).
Qed.

(** ** RandomCrop *)

(** C5: with a first frame of a supported class, of height [im_h] and
    width [im_w], the call raises ValueError exactly when the requested
    height or width exceeds the frame's, and then nothing was drawn:
    the generator state is the one the call started from. *)
Theorem RandomCrop_ValueError_iff (h w : nat) (first : frame) (rest : list frame)
    (g : S) (im_h im_w : nat) :
  RandomCrop.first_dims first = Ok (im_h, im_w) ->
  let self := RandomCrop.init (h, w) in
  (fst (RandomCrop.call self (first :: rest) g) = Raise ValueError
     <-> im_h < h \/ im_w < w) /\
  (im_h < h \/ im_w < w ->
     RandomCrop.call self (first :: rest) g = (Raise ValueError, g)).
Proof.
  intros Hdims self. unfold RandomCrop.call, self.
  cbn [RandomCrop.size getitem0 mbind result_bind]. rewrite Hdims.
  cbn [mbind result_bind].
  destruct (Nat.ltb_spec im_w w) as [Hw|Hw]; cbn [orb].
  { split; [split; [lia | reflexivity] | reflexivity]. }
  destruct (Nat.ltb_spec im_h h) as [Hh|Hh].
  { split; [split; [lia | reflexivity] | reflexivity]. }
  split; [|lia]. split; [|lia]. intros Hraise. exfalso.
  destruct (random_randint_range 0 (Z.of_nat im_w - Z.of_nat w) g ltac:(lia))
    as (x1 & Hx1 & _).
  destruct (random_randint 0 (Z.of_nat im_w - Z.of_nat w) g) as [r1 g1].
  simpl in Hx1; subst r1.
  destruct (random_randint_range 0 (Z.of_nat im_h - Z.of_nat h) g1 ltac:(lia))
    as (y1 & Hy1 & _).
  destruct (random_randint 0 (Z.of_nat im_h - Z.of_nat h) g1) as [r2 g2].
  simpl in Hy1; subst r2. cbn [fst] in Hraise.
  destruct first as [a0|i0|]; [| |discriminate].
  - apply comprehension_raise in Hraise as (x & _ & Hx).
    destruct x; discriminate.
  - apply comprehension_raise in Hraise as (x & _ & Hx).
    destruct x; discriminate.
Qed.

(** ** Frame count *)

(** C9: when RandomHorizontalFlip, Scale or RandomCrop returns, on a
    clip that is not empty, the clip it returns has as many frames as
    the clip it was given. *)
Theorem transforms_preserve_frame_count (t : clip_transform) (clip out : list frame)
    (g g' : S) :
  clip <> [] ->
  apply_transform t clip g = (Ok out, g') ->
  length out = length clip.
Proof.
  intros _. destruct t as [|self|self]; cbn [apply_transform].
  - unfold RandomHorizontalFlip.call.
    destruct (random_random g) as [u g1].
    destruct (Qlt_le_dec u (1 # 2)); [|by intros [= <- _]].
    intros [= Hout _]. destruct clip as [|first rest]; [discriminate|].
    cbn [getitem0 mbind result_bind] in Hout.
    destruct first; [| |discriminate]; eapply comprehension_length, Hout.
  - unfold Compose.pure, Scale.call. intros [= Hout _].
    destruct clip as [|first rest]; [discriminate|].
    cbn [getitem0 mbind result_bind] in Hout.
    destruct first; [| |discriminate]; eapply comprehension_length, Hout.
  - unfold RandomCrop.call. destruct (RandomCrop.size self) as [h w].
    destruct clip as [|first rest]; [discriminate|].
    cbn [getitem0 mbind result_bind].
    destruct (RandomCrop.first_dims first) as [[im_h im_w]|e];
      cbn [mbind result_bind]; [|discriminate].
    destruct ((im_w <? w) || (im_h <? h)); [discriminate|].
    destruct (random_randint 0 _ g) as [[x1|e] g1]; [|discriminate].
    destruct (random_randint 0 _ g1) as [[y1|e] g2]; [|discriminate].
    intros [= Hout _].
    destruct first; [| |discriminate]; eapply comprehension_length, Hout.
Qed.

(** ** The empty clip *)

(** C10, as the code has it: on the empty clip ToTensor, Scale and
    RandomCrop raise IndexError (RandomCrop before it draws);
    RandomHorizontalFlip raises IndexError when its draw is below 0.5
    and returns the empty clip otherwise; Compose with no transform
    returns the empty clip. *)
Theorem empty_clip_behaviour (tt : ToTensor.t) (sc : Scale.t) (rc : RandomCrop.t)
    (g : S) :
  let u := fst (random_random g) in
  let g1 := snd (random_random g) in
  ToTensor.call tt [] = Raise IndexError /\
  Scale.call sc [] = Raise IndexError /\
  RandomCrop.call rc [] g = (Raise IndexError, g) /\
  ((u < 1 # 2)%Q -> RandomHorizontalFlip.call [] g = (Raise IndexError, g1)) /\
  ((1 # 2 <= u)%Q -> RandomHorizontalFlip.call [] g = (Ok [], g1)) /\
  Compose.call (Compose.init []) ([] : list frame) g = (Ok [], g).
Proof.
  intros u g1. repeat split.
  - unfold RandomCrop.call. destruct (RandomCrop.size rc). reflexivity.
  - unfold RandomHorizontalFlip.call, u, g1.
    destruct (random_random g) as [v g']; simpl.
    destruct (Qlt_le_dec v (1 # 2)) as [Hlt|Hle]; intros Hv; [reflexivity|].
    exfalso. exact (Qlt_not_le _ _ Hv Hle).
  - unfold RandomHorizontalFlip.call, u, g1.
    destruct (random_random g) as [v g']; simpl.
    destruct (Qlt_le_dec v (1 # 2)) as [Hlt|Hle]; intros Hv; [|reflexivity].
    exfalso. exact (Qlt_not_le _ _ Hlt Hv).
Qed.

(** C1: on a clip of the data model (one class, one shape) whose
    frames are at least as high and as wide as the crop, the call
    draws [x1] from [0, im_w - w], then [y1] from [0, im_h - h], and
    nothing else; it returns one frame per input frame, of the class of
    the input, of height [h] and width [w], whose element at (y, x) is
    the input frame's element at (y1 + y, x1 + x): the same window in
    every frame. *)
Theorem RandomCrop_same_window (h w : nat) (clip : list frame) (first : frame)
    (im_h im_w : nat) (g : S) :
  uniform_clip clip = true ->
  getitem0 clip = Ok first ->
  RandomCrop.first_dims first = Ok (im_h, im_w) ->
  h <= im_h -> w <= im_w ->
  exists (x1 y1 : Z) (g1 g2 : S) (out : list frame),
    random_randint 0 (Z.of_nat im_w - Z.of_nat w) g = (Ok x1, g1) /\
    random_randint 0 (Z.of_nat im_h - Z.of_nat h) g1 = (Ok y1, g2) /\
    (0 <= x1 <= Z.of_nat im_w - Z.of_nat w)%Z /\
    (0 <= y1 <= Z.of_nat im_h - Z.of_nat h)%Z /\
    RandomCrop.call (RandomCrop.init (h, w)) clip g = (Ok out, g2) /\
    length out = length clip /\
    forall n fr, clip !! n = Some fr ->
      exists fr' c, out !! n = Some fr' /\
        same_class fr fr' = true /\
        frame_well_shaped fr' = true /\
        frame_shape fr' = Some (h, w, c) /\
        forall y x k, y < h -> x < w ->
          frame_item fr' y x k =
          frame_item fr (Z.to_nat y1 + y) (Z.to_nat x1 + x) k.
Proof.
  intros Hu Hfirst Hdims Hh Hw.
  destruct (uniform_clip_spec clip Hu) as (f0 & rest & s0 & -> & Hs0 & Hall).
  cbn [getitem0] in Hfirst. injection Hfirst as <-.
  destruct (random_randint_range 0 (Z.of_nat im_w - Z.of_nat w) g ltac:(lia))
    as (x1 & Hx1 & Hrx).
  destruct (random_randint 0 (Z.of_nat im_w - Z.of_nat w) g) as [r1 g1] eqn:Hd1.
  cbn [fst] in Hx1; subst r1.
  destruct (random_randint_range 0 (Z.of_nat im_h - Z.of_nat h) g1 ltac:(lia))
    as (y1 & Hy1 & Hry).
  destruct (random_randint 0 (Z.of_nat im_h - Z.of_nat h) g1) as [r2 g2] eqn:Hd2.
  cbn [fst] in Hy1; subst r2.
  exists x1, y1, g1, g2.
  unfold RandomCrop.call. cbn [RandomCrop.size getitem0 mbind result_bind].
  rewrite Hdims. cbn [mbind result_bind].
  destruct (Nat.ltb_spec im_w w) as [?|_]; [lia|].
  destruct (Nat.ltb_spec im_h h) as [?|_]; [lia|]. cbn [orb].
  rewrite Hd1, Hd2.
  set (X := Z.to_nat x1). set (Y := Z.to_nat y1).
  assert (X + w <= im_w) as HX by lia. assert (Y + h <= im_h) as HY by lia.
  destruct f0 as [a0|i0|]; [| |discriminate].
  - (* arrays *)
    cbn in Hs0, Hdims. destruct (shape a0) as [[d0 d1] d2] eqn:Hsa.
    injection Hdims as -> ->. injection Hs0 as <-.
    destruct (comprehension_returns (getitem_obj Y h X w) (NdArray a0 :: rest))
      as [out Hout].
    { eapply Forall_impl; [exact Hall|]. intros f (Hc & _ & _).
      destruct f; [eauto | discriminate Hc | discriminate Hc]. }
    exists out. do 2 (split; [reflexivity|]).
    split; [exact Hrx|]. split; [exact Hry|]. split; [by rewrite Hout|].
    split; [eapply comprehension_length, Hout|].
    intros n fr Hfr.
    destruct (comprehension_lookup _ _ _ n fr Hout Hfr) as (fr' & Hfr' & Hget).
    rewrite Forall_lookup in Hall. destruct (Hall n fr Hfr) as (Hc & Hws & Hsh).
    destruct fr as [a|i|]; [|discriminate Hc|discriminate Hc].
    cbn in Hget, Hws, Hsh. injection Hget as <-. injection Hsh as Hsh.
    exists (NdArray (getitem_window a Y h X w)), d2.
    split; [exact Hfr'|]. split; [reflexivity|].
    split; [by apply well_shaped_getitem_window|].
    split; [cbn; f_equal; by eapply shape_getitem_window|].
    intros y x k Hy Hx. cbn. by apply item_getitem_window.
  - (* images *)
    cbn in Hs0, Hdims. unfold image_size in Hdims.
    destruct (shape (pixels i0)) as [[d0 d1] d2] eqn:Hsa.
    injection Hdims as -> ->. injection Hs0 as <-.
    destruct (comprehension_returns (crop_obj (X, Y, X + w, Y + h)) (PILImage i0 :: rest))
      as [out Hout].
    { eapply Forall_impl; [exact Hall|]. intros f (Hc & _ & _).
      destruct f; [discriminate Hc | eauto | discriminate Hc]. }
    exists out. do 2 (split; [reflexivity|]).
    split; [exact Hrx|]. split; [exact Hry|]. split; [by rewrite Hout|].
    split; [eapply comprehension_length, Hout|].
    intros n fr Hfr.
    destruct (comprehension_lookup _ _ _ n fr Hout Hfr) as (fr' & Hfr' & Hget).
    rewrite Forall_lookup in Hall. destruct (Hall n fr Hfr) as (Hc & Hws & Hsh).
    destruct fr as [a|i|]; [discriminate Hc| |discriminate Hc].
    cbn in Hget, Hws, Hsh. injection Hget as <-. injection Hsh as Hsh.
    exists (PILImage (image_crop i (X, Y, X + w, Y + h))), d2.
    split; [exact Hfr'|]. split; [reflexivity|].
    split; [by apply well_shaped_image_crop|].
    split; [cbn; f_equal; by eapply shape_image_crop|].
    intros y x k Hy Hx. cbn. by eapply item_image_crop.
Qed.

(** C6: the call draws once, whatever the clip and whatever it
    returns. When the draw is below 0.5, and the clip is of one
    supported class, it returns one frame per input frame, of the class
    and shape of the input, whose element at column [x] is the input
    frame's element at column [W - 1 - x]; when the draw is not below
    0.5 it returns the clip it was given. *)
Theorem RandomHorizontalFlip_one_draw (clip : list frame) (g : S) :
  let u := fst (random_random g) in
  let g1 := snd (random_random g) in
  snd (RandomHorizontalFlip.call clip g) = g1 /\
  ((u < 1 # 2)%Q -> uniform_class clip = true ->
     exists out, RandomHorizontalFlip.call clip g = (Ok out, g1) /\
       length out = length clip /\
       forall n fr, clip !! n = Some fr ->
         exists fr' hh ww cc, out !! n = Some fr' /\
           same_class fr fr' = true /\
           frame_well_shaped fr' = true /\
           frame_shape fr = Some (hh, ww, cc) /\
           frame_shape fr' = Some (hh, ww, cc) /\
           forall y x k, x < ww ->
             frame_item fr' y x k = frame_item fr y (ww - 1 - x) k) /\
  ((1 # 2 <= u)%Q -> RandomHorizontalFlip.call clip g = (Ok clip, g1)).
Proof.
  intros u g1. unfold RandomHorizontalFlip.call, u, g1.
  destruct (random_random g) as [v g']; cbn [fst snd].
  destruct (Qlt_le_dec v (1 # 2)) as [Hlt|Hle];
    (split; [reflexivity|]); split; intros Hv;
    try reflexivity; try (exfalso; exact (Qlt_not_le _ _ Hlt Hv)).
  2:{ exfalso; exact (Qlt_not_le _ _ Hv Hle). }
  intros Hu.
  destruct (uniform_class_spec clip Hu) as (f0 & rest & -> & Hall).
  cbn [getitem0 mbind result_bind].
  destruct f0 as [a0|i0|].
  - destruct (comprehension_returns np_fliplr_obj (NdArray a0 :: rest)) as [out Hout].
    { eapply Forall_impl; [exact Hall|]. intros f (Hc & _).
      destruct f; [eauto | discriminate Hc | discriminate Hc]. }
    exists out. split; [by rewrite Hout|].
    split; [eapply comprehension_length, Hout|].
    intros n fr Hfr.
    destruct (comprehension_lookup _ _ _ n fr Hout Hfr) as (fr' & Hfr' & Hget).
    rewrite Forall_lookup in Hall. destruct (Hall n fr Hfr) as (Hc & Hws).
    destruct fr as [a|i|]; [|discriminate Hc|discriminate Hc].
    cbn in Hget, Hws. injection Hget as <-.
    destruct (shape a) as [[hh ww] cc] eqn:Hsa.
    exists (NdArray (np_fliplr a)), hh, ww, cc.
    split; [exact Hfr'|]. split; [reflexivity|].
    split; [by apply well_shaped_np_fliplr|].
    split; [cbn; by rewrite Hsa|]. split; [cbn; by rewrite Hsa|].
    intros y x k Hx. cbn. by eapply item_np_fliplr.
  - destruct (comprehension_returns transpose_flip_obj (PILImage i0 :: rest)) as [out Hout].
    { eapply Forall_impl; [exact Hall|]. intros f (Hc & _).
      destruct f; [discriminate Hc | eauto | discriminate Hc]. }
    exists out. split; [by rewrite Hout|].
    split; [eapply comprehension_length, Hout|].
    intros n fr Hfr.
    destruct (comprehension_lookup _ _ _ n fr Hout Hfr) as (fr' & Hfr' & Hget).
    rewrite Forall_lookup in Hall. destruct (Hall n fr Hfr) as (Hc & Hws).
    destruct fr as [a|i|]; [discriminate Hc| |discriminate Hc].
    cbn in Hget, Hws. injection Hget as <-.
    destruct (shape (pixels i)) as [[hh ww] cc] eqn:Hsa.
    exists (PILImage (image_flip_left_right i)), hh, ww, cc.
    split; [exact Hfr'|]. split; [reflexivity|].
    split; [by apply well_shaped_np_fliplr|].
    split; [cbn; by rewrite Hsa|]. split; [cbn; by rewrite Hsa|].
    intros y x k Hx. cbn. by eapply item_np_fliplr.
  - apply Forall_inv in Hall. destruct Hall as [Hc _]. discriminate Hc.
Qed.

End Transforms.

(** ** ToTensor: the channel assertion *)

(** C8, as the code has it: when the first frame of the clip is an
    array whose third extent is not [channel_nb], the call raises
    AssertionError, whatever the other frames are. *)
Theorem ToTensor_channel_assertion (self : ToTensor.t) (a : ndarray)
    (rest : list frame) :
  snd (shape a) <> ToTensor.channel_nb self ->
  ToTensor.call self (NdArray a :: rest) = Raise AssertionError.
Proof.
  intros Hc. unfold ToTensor.call. cbn [getitem0 mbind result_bind].
  destruct (shape a) as [[h w] c]. cbn [snd] in Hc.
  destruct (Nat.eqb_spec c (ToTensor.channel_nb self)); [contradiction | reflexivity].
Qed.


(** ** ToTensor on sample clips *)

(** Two frames of shape 4 x 4 x 3 holding 255 everywhere give a tensor
    of shape (3, 2, 4, 4) whose elements all equal 1. *)
Lemma ToTensor_all_255 :
  exists out,
    ToTensor.call ToTensor.default_init
      [NdArray (constant_array 4 4 3 255); NdArray (constant_array 4 4 3 255)] = Ok out /\
    tensor_shape out = (3, 2, 4, 4) /\
    tensor_forallb (fun q => Qeq_bool q 1) out = true.
Proof. eexists. split; [vm_compute; reflexivity|]. split; reflexivity. Qed.

(** Two frames holding 0 everywhere give a tensor of zeros. *)
Lemma ToTensor_all_zero :
  exists out,
    ToTensor.call ToTensor.default_init
      [NdArray (constant_array 4 4 3 0); NdArray (constant_array 4 4 3 0)] = Ok out /\
    tensor_shape out = (3, 2, 4, 4) /\
    tensor_forallb (fun q => Qeq_bool q 0) out = true.
Proof. eexists. split; [vm_compute; reflexivity|]. split; reflexivity. Qed.

(** C2, on the frame of one row and two pixels (10, 20, 30) and
    (40, 50, 60): the tensor has shape (3, 1, 1, 2) and its element at
    channel 0, column 0 is 40/255, the channel 0 of the right pixel;
    it is not 30/255, the channel 2 of the left pixel, which a reversal
    of the channels would put there. The call reverses the columns and
    keeps the channels in place. *)
Theorem ToTensor_reverses_columns_not_channels :
  exists out q,
    ToTensor.call ToTensor.default_init [NdArray two_pixel_array] = Ok out /\
    tensor_shape out = (3, 1, 1, 2) /\
    tensor_item out 0 0 0 0 = Some q /\
    frame_item (NdArray two_pixel_array) 0 1 0 = Some 40%Z /\
    (q == inject_Z 40 / 255)%Q /\
    frame_item (NdArray two_pixel_array) 0 0 2 = Some 30%Z /\
    ~ (q == inject_Z 30 / 255)%Q.
Proof.
  eexists. eexists. split; [vm_compute; reflexivity|].
  repeat split. intros Hq. discriminate Hq.
Qed.

(** ** Inputs on which the stated claims fail *)

(** Against C4: with a draw of 0.7 the call on a clip holding an
    unsupported object raises nothing and returns the clip. *)
Lemma RandomHorizontalFlip_unsupported_no_error :
  RandomHorizontalFlip.call [OtherObject] [700] = (Ok [OtherObject], []) /\
  fst (RandomHorizontalFlip.call [OtherObject] [700]) <> Raise TypeError.
Proof. split; [reflexivity | discriminate]. Qed.

(** Against C8: the second frame is an array with one channel, not 3;
    the call raises nothing and returns a tensor, the one channel
    repeated three times. *)
Lemma ToTensor_later_frame_unchecked :
  snd (shape (constant_array 1 2 1 7)) <> ToTensor.channel_nb ToTensor.default_init /\
  ToTensor.call ToTensor.default_init
    [NdArray two_pixel_array; NdArray (constant_array 1 2 1 7)] =
  Ok {| tensor_shape := (3, 2, 1, 2);
        tensor_data := [[[[40 # 255; 10 # 255]]; [[7 # 255; 7 # 255]]];
                        [[[50 # 255; 20 # 255]]; [[7 # 255; 7 # 255]]];
                        [[[60 # 255; 30 # 255]]; [[7 # 255; 7 # 255]]]]%Q |}.
Proof. split; [discriminate | vm_compute; reflexivity]. Qed.

(** A second frame with four channels passes the assertion as well;
    what ends the call is the ValueError of the assignment into the
    buffer. *)
Lemma ToTensor_later_frame_four_channels :
  ToTensor.call ToTensor.default_init
    [NdArray two_pixel_array; NdArray (constant_array 1 2 4 7)] = Raise ValueError.
Proof. reflexivity. Qed.

(** Against C10: with a draw of 0.7 RandomHorizontalFlip returns the
    empty clip for the empty clip. *)
Lemma RandomHorizontalFlip_empty_clip_returned :
  RandomHorizontalFlip.call [] [700] = (Ok [], []).
Proof. reflexivity. Qed.

(** ** The theorems at sample inputs *)

(** A crop of one pixel from a clip of two arrays of one row and two
    columns. *)
Lemma RandomCrop_same_window_witness :
  let clip := [NdArray two_pixel_array; NdArray (constant_array 1 2 3 9)] in
  uniform_clip clip = true /\
  getitem0 clip = Ok (NdArray two_pixel_array) /\
  RandomCrop.first_dims (NdArray two_pixel_array) = Ok (1, 2) /\
  1 <= 1 /\ 1 <= 2 /\
  exists out g2,
    RandomCrop.call (RandomCrop.init (1, 1)) clip [5; 7] = (Ok out, g2) /\
    length out = 2.
Proof.
  intros clip.
  assert (Hu : uniform_clip clip = true) by reflexivity.
  assert (Hf : getitem0 clip = Ok (NdArray two_pixel_array)) by reflexivity.
  assert (Hd : RandomCrop.first_dims (NdArray two_pixel_array) = Ok (1, 2)) by reflexivity.
  assert (Hh : 1 <= 1) by lia. assert (Hw : 1 <= 2) by lia.
  do 5 (split; [assumption|]).
  destruct (RandomCrop_same_window 1 1 clip (NdArray two_pixel_array) 1 2 [5; 7]
              Hu Hf Hd Hh Hw)
    as (x1 & y1 & g1 & g2 & out & _ & _ & _ & _ & Hcall & Hlen & _).
  exists out, g2. split; [exact Hcall | exact Hlen].
Defined.

(** ['nearest'] on an array clip, ['bilinear'] on an image clip. *)
Lemma Scale_interpolation_asymmetric_witness :
  "nearest" <> "bilinear" /\
  Scale.call (Scale.init (1, 1) "nearest") [NdArray two_pixel_array] =
    comprehension (cv2_resize_obj (1, 1) INTER_NEAREST) [NdArray two_pixel_array] /\
  Scale.call (Scale.init (1, 1) "bilinear") [PILImage (mk_image two_pixel_array)] =
    comprehension (resize_obj (1, 1) NEAREST) [PILImage (mk_image two_pixel_array)].
Proof.
  assert (Hne : "nearest" <> "bilinear") by discriminate.
  split; [exact Hne|]. split.
  - exact (proj1 (proj2 (Scale_interpolation_asymmetric (1, 1) "nearest"
             two_pixel_array (mk_image two_pixel_array) []) Hne)).
  - exact (proj2 (proj1 (Scale_interpolation_asymmetric (1, 1) "bilinear"
             two_pixel_array (mk_image two_pixel_array) []) eq_refl)).
Defined.

(** An unsupported object under a draw of 0.2 and under a draw of 0.7. *)
Lemma RandomHorizontalFlip_unsupported_witness :
  (fst (random_random [200%nat]) < 1 # 2)%Q /\
  RandomHorizontalFlip.call [OtherObject] [200] = (Raise TypeError, []) /\
  (1 # 2 <= fst (random_random [700%nat]))%Q /\
  RandomHorizontalFlip.call [OtherObject] [700] = (Ok [OtherObject], []).
Proof.
  assert (Hlt : (fst (random_random [200%nat]) < 1 # 2)%Q) by reflexivity.
  assert (Hle : (1 # 2 <= fst (random_random [700%nat]))%Q) by (unfold Qle; simpl; lia).
  split; [exact Hlt|]. split.
  - exact (proj1 (RandomHorizontalFlip_unsupported [] [200]) Hlt).
  - split; [exact Hle|].
    exact (proj2 (RandomHorizontalFlip_unsupported [] [700]) Hle).
Defined.

(** A crop of height 2 from a frame of height 1. *)
Lemma RandomCrop_ValueError_iff_witness :
  RandomCrop.first_dims (NdArray two_pixel_array) = Ok (1, 2) /\
  (1 < 2 \/ 2 < 1) /\
  RandomCrop.call (RandomCrop.init (2, 1)) [NdArray two_pixel_array] [5; 7] =
    (Raise ValueError, [5; 7]).
Proof.
  assert (Hd : RandomCrop.first_dims (NdArray two_pixel_array) = Ok (1, 2)) by reflexivity.
  assert (Hx : 1 < 2 \/ 2 < 1) by (left; lia).
  split; [exact Hd|]. split; [exact Hx|].
  exact (proj2 (RandomCrop_ValueError_iff 2 1 (NdArray two_pixel_array) [] [5; 7] 1 2 Hd) Hx).
Defined.

(** One image under a draw of 0.2. *)
Lemma RandomHorizontalFlip_one_draw_witness :
  let clip := [PILImage (mk_image two_pixel_array)] in
  (fst (random_random [200%nat]) < 1 # 2)%Q /\
  uniform_class clip = true /\
  exists out, RandomHorizontalFlip.call clip [200] = (Ok out, []) /\ length out = 1.
Proof.
  intros clip.
  assert (Hu : uniform_class clip = true) by reflexivity.
  assert (Hlt : (fst (random_random [200%nat]) < 1 # 2)%Q) by reflexivity.
  split; [exact Hlt|]. split; [exact Hu|].
  destruct (proj1 (proj2 (RandomHorizontalFlip_one_draw clip [200])) Hlt Hu)
    as (out & Hcall & Hlen & _).
  exists out. split; [exact Hcall | exact Hlen].
Defined.

(** A first frame with four channels. *)
Lemma ToTensor_channel_assertion_witness :
  snd (shape (constant_array 4 4 4 0)) <> ToTensor.channel_nb ToTensor.default_init /\
  ToTensor.call ToTensor.default_init [NdArray (constant_array 4 4 4 0)] =
    Raise AssertionError.
Proof.
  assert (Hc : snd (shape (constant_array 4 4 4 0)) <>
               ToTensor.channel_nb ToTensor.default_init) by (simpl; lia).
  split; [exact Hc|].
  exact (ToTensor_channel_assertion ToTensor.default_init (constant_array 4 4 4 0) [] Hc).
Defined.

(** [Scale((1, 1))] on a clip of two arrays. *)
Lemma transforms_preserve_frame_count_witness :
  let clip := [NdArray two_pixel_array; NdArray (constant_array 1 2 3 9)] in
  clip <> [] /\
  apply_transform (Rescale (Scale.default_init (1, 1))) clip [5; 7]
    = (Ok [NdArray (mk_ndarray (1, 1, 3) [[[10; 20; 30]]]%Z);
           NdArray (constant_array 1 1 3 9)], [5; 7]) /\
  length [NdArray (mk_ndarray (1, 1, 3) [[[10; 20; 30]]]%Z);
          NdArray (constant_array 1 1 3 9)] = length clip.
Proof.
  intros clip.
  assert (Hne : clip <> []) by discriminate.
  assert (Hcall : apply_transform (Rescale (Scale.default_init (1, 1))) clip [5; 7]
    = (Ok [NdArray (mk_ndarray (1, 1, 3) [[[10; 20; 30]]]%Z);
           NdArray (constant_array 1 1 3 9)], [5; 7])) by reflexivity.
  split; [exact Hne|]. split; [exact Hcall|].
  exact (transforms_preserve_frame_count _ clip _ [5; 7] [5; 7] Hne Hcall).
Defined.

(** The empty clip under a draw of 0.2 and under a draw of 0.7. *)
Lemma empty_clip_behaviour_witness :
  (fst (random_random [200%nat]) < 1 # 2)%Q /\
  RandomHorizontalFlip.call [] [200] = (Raise IndexError, []) /\
  (1 # 2 <= fst (random_random [700%nat]))%Q /\
  RandomHorizontalFlip.call [] [700] = (Ok [], []).
Proof.
  assert (Hlt : (fst (random_random [200%nat]) < 1 # 2)%Q) by reflexivity.
  assert (Hle : (1 # 2 <= fst (random_random [700%nat]))%Q) by (unfold Qle; simpl; lia).
  pose proof (empty_clip_behaviour ToTensor.default_init (Scale.default_init (1, 1))
                (RandomCrop.init (1, 1)) [200]) as (_ & _ & _ & Hflip & _).
  pose proof (empty_clip_behaviour ToTensor.default_init (Scale.default_init (1, 1))
                (RandomCrop.init (1, 1)) [700]) as (_ & _ & _ & _ & Hkeep & _).
  split; [exact Hlt|]. split; [exact (Hflip Hlt)|].
  split; [exact Hle|]. exact (Hkeep Hle).
Defined.

(** ** ToTensor on clips of any mix of the two classes *)

Lemma setitem_frame_shape (buf buf' : tensor) (idx : nat) (value : ndarray) :
  setitem_frame buf idx value = Ok buf' -> tensor_shape buf' = tensor_shape buf.
Proof.
  unfold setitem_frame. destruct (tensor_shape buf) as [[[d0 d1] d2] d3] eqn:Hs.
  destruct (shape value) as [[s0 s1] s2].
  destruct (broadcastable s0 d0 && broadcastable s1 d2 && broadcastable s2 d3);
    [|discriminate].
  intros [= <-]. reflexivity.
Qed.

Lemma ToTensor_loop_returns (todo : list frame) :
  forall (idx : nat) (buf out : tensor),
  ToTensor.loop todo idx buf = Ok out ->
  Forall (fun f => f <> OtherObject) todo /\ tensor_shape out = tensor_shape buf.
Proof.
  induction todo as [|img rest IH]; intros idx buf out; cbn [ToTensor.loop].
  - intros [= <-]. split; [constructor | reflexivity].
  - destruct img as [a|i|]; cbn [mbind result_bind]; [| |discriminate].
    + destruct (setitem_frame buf idx _) as [buf'|e] eqn:Hset;
        cbn [mbind result_bind]; [|discriminate].
      intros Hloop. destruct (IH _ _ _ Hloop) as [Hall Hsh].
      split; [constructor; [discriminate | exact Hall]|].
      rewrite Hsh. eapply setitem_frame_shape, Hset.
    + destruct (setitem_frame buf idx _) as [buf'|e] eqn:Hset;
        cbn [mbind result_bind]; [|discriminate].
      intros Hloop. destruct (IH _ _ _ Hloop) as [Hall Hsh].
      split; [constructor; [discriminate | exact Hall]|].
      rewrite Hsh. eapply setitem_frame_shape, Hset.
Qed.

Lemma ToTensor_loop_as_array (todo : list frame) (idx : nat) (buf : tensor) :
  ToTensor.loop (map as_array todo) idx buf = ToTensor.loop todo idx buf.
Proof.
  revert idx buf. induction todo as [|img rest IH]; intros idx buf; [reflexivity|].
  cbn [map ToTensor.loop].
  destruct img as [a|i|]; cbn [as_array mbind result_bind]; [| |reflexivity].
  - destruct (setitem_frame buf idx _) as [buf'|e]; cbn [mbind result_bind];
      [apply IH | reflexivity].
  - destruct (setitem_frame buf idx _) as [buf'|e]; cbn [mbind result_bind];
      [apply IH | reflexivity].
Qed.




(** X3: whenever ToTensor returns, the clip was not empty and held no
    object of an unsupported class, and the tensor has [channel_nb]
    channels and one time step per frame, with the height and width
    of the first frame. *)
Theorem ToTensor_returns_only_supported (self : ToTensor.t) (clip : list frame)
    (out : tensor) :
  ToTensor.call self clip = Ok out ->
  Forall (fun f => f <> OtherObject) clip /\
  exists first h w c,
    clip !! 0 = Some first /\ frame_shape first = Some (h, w, c) /\
    tensor_shape out = (ToTensor.channel_nb self, length clip, h, w).
Proof.
  unfold ToTensor.call. destruct clip as [|f0 rest]; [discriminate|].
  cbn [getitem0 mbind result_bind].
  assert (forall h w,
    (tensor_clip ← ToTensor.loop (f0 :: rest) 0
        (np_zeros (ToTensor.channel_nb self, length (f0 :: rest), h, w));
     Ok (tensor_div tensor_clip 255)) = Ok out ->
    Forall (fun f => f <> OtherObject) (f0 :: rest) /\
    tensor_shape out = (ToTensor.channel_nb self, length (f0 :: rest), h, w)) as Hrun.
  { intros h w.
    destruct (ToTensor.loop (f0 :: rest) 0 _) as [buf|e] eqn:Hloop;
      cbn [mbind result_bind]; [|discriminate].
    intros [= <-]. destruct (ToTensor_loop_returns _ _ _ _ Hloop) as [Hall Hsh].
    split; [exact Hall|]. cbn [tensor_div tensor_shape]. exact Hsh. }
  destruct f0 as [a|i|]; [| |discriminate].
  - destruct (shape a) as [[h w] c] eqn:Hs.
    destruct (c =? ToTensor.channel_nb self); cbn [mbind result_bind]; [|discriminate].
    intros Hcall. destruct (Hrun h w Hcall) as [Hall Hsh].
    split; [exact Hall|]. exists (NdArray a), h, w, c.
    split; [reflexivity|]. split; [cbn; by rewrite Hs | exact Hsh].
  - unfold image_size. destruct (shape (pixels i)) as [[h w] c] eqn:Hs.
    cbn [mbind result_bind].
    intros Hcall. destruct (Hrun h w Hcall) as [Hall Hsh].
    split; [exact Hall|]. exists (PILImage i), h, w, c.
    split; [reflexivity|]. split; [cbn; by rewrite Hs | exact Hsh].
Qed.

(** X4: ToTensor does not tell an image from its array: replacing
    every image of the clip by the array [np.array] gives of it leaves
    the result unchanged, as soon as a first frame that is an image has
    [channel_nb] bands (an array in first place is asserted to have
    that many channels, an image is not). *)
Theorem ToTensor_as_array (self : ToTensor.t) (clip : list frame) :
  (forall i, clip !! 0 = Some (PILImage i) ->
     snd (shape (pixels i)) = ToTensor.channel_nb self) ->
  ToTensor.call self (map as_array clip) = ToTensor.call self clip.
Proof.
  intros Hfirst. unfold ToTensor.call. rewrite length_map.
  destruct clip as [|f0 rest]; [reflexivity|].
  cbn [getitem0 map mbind result_bind].
  change (as_array f0 :: map as_array rest) with (map as_array (f0 :: rest)).
  destruct f0 as [a|i|]; cbn [as_array]; [| |reflexivity].
  - destruct (shape a) as [[h w] c].
    destruct (c =? ToTensor.channel_nb self); cbn [mbind result_bind]; [|reflexivity].
    by rewrite ToTensor_loop_as_array.
  - specialize (Hfirst i eq_refl). unfold image_size, np_array.
    destruct (shape (pixels i)) as [[h w] c]. cbn [snd] in Hfirst. subst c.
    rewrite Nat.eqb_refl. cbn [mbind result_bind].
    by rewrite ToTensor_loop_as_array.
Qed.

(** X5: the channel assertion does not cover images. When the first
    frame is an image whose number of bands is neither [channel_nb]
    nor 1, the call ends in the ValueError of the assignment into the
    buffer, not in an AssertionError. *)
Theorem ToTensor_image_bands_unchecked (self : ToTensor.t) (i : image)
    (rest : list frame) (h w c : nat) :
  shape (pixels i) = (h, w, c) ->
  c <> ToTensor.channel_nb self -> c <> 1 ->
  ToTensor.call self (PILImage i :: rest) = Raise ValueError.
Proof.
  intros Hs Hc H1. unfold ToTensor.call. cbn [getitem0 mbind result_bind].
  unfold image_size. rewrite Hs. cbn [mbind result_bind ToTensor.loop].
  unfold setitem_frame, np_zeros. cbn [tensor_shape].
  unfold reverse_last_axis, ToTensor.convert_img, transpose_2_0_1, np_array.
  rewrite Hs. cbn [shape]. unfold broadcastable.
  destruct (Nat.eqb_spec c (ToTensor.channel_nb self)); [contradiction|].
  destruct (Nat.eqb_spec c 1); [contradiction|]. reflexivity.
Qed.

(** ** Windows of arrays and of images *)

Lemma comprehension_commute {A B A' B'} (f : A' -> result B') (f' : A -> result B)
    (p : A -> A') (q : B -> B') (l : list A) :
  Forall (fun x => f (p x) = q <$> f' x) l ->
  comprehension f (map p l) = map q <$> comprehension f' l.
Proof.
  induction 1 as [|x l Hx _ IH]; [reflexivity|].
  cbn [map comprehension]. rewrite Hx, IH.
  destruct (f' x) as [y|e]; cbn [fmap result_fmap mbind result_bind]; [|reflexivity].
  destruct (comprehension f' l) as [ys|e]; reflexivity.
Qed.

Lemma comprehension_same {A} (f : A -> result A) (l : list A) :
  Forall (fun x => f x = Ok x) l -> comprehension f l = Ok l.
Proof.
  induction 1 as [|x l Hx _ IH]; [reflexivity|].
  cbn [comprehension]. rewrite Hx, IH. reflexivity.
Qed.

Lemma slice_as_lookups {A} (d : A) (start len : nat) (l : list A) :
  start + len <= length l ->
  map (fun i => default d (l !! i)) (seq start len) = slice start len l.
Proof.
  intros Hlen. apply list_eq. intros i. rewrite lookup_map.
  destruct (decide (i < len)) as [Hi|Hi].
  - rewrite lookup_seq_lt, lookup_slice by exact Hi.
    destruct (lookup_lt_is_Some_2 l (start + i) ltac:(lia)) as [x Hx].
    cbn [fmap option_fmap option_map]. rewrite Hx. reflexivity.
  - rewrite lookup_seq_ge by lia. unfold slice. rewrite lookup_take_ge by lia.
    reflexivity.
Qed.

Lemma slice_all {A} (l : list A) : slice 0 (length l) l = l.
Proof. unfold slice. rewrite drop_0. apply firstn_all. Qed.

(** Inside the image, [crop] with the box (x1, y1, x1 + w, y1 + h)
    holds what the slice [y1:y1 + h, x1:x1 + w, :] of its array
    holds. *)
Lemma image_crop_window (i : image) (d0 d1 d2 x1 y1 w h : nat) :
  shape (pixels i) = (d0, d1, d2) -> well_shaped (pixels i) = true ->
  y1 + h <= d0 -> x1 + w <= d1 ->
  pixels (image_crop i (x1, y1, x1 + w, y1 + h)) = getitem_window (pixels i) y1 h x1 w.
Proof.
  intros Hs Hw Hh Hwd.
  pose proof (proj1 (well_shaped_spec _ d0 d1 d2 Hs) Hw) as [Hlen Hrows].
  unfold image_crop, getitem_window. rewrite Hs. cbn [pixels].
  replace (y1 + h - y1) with h by lia. replace (x1 + w - x1) with w by lia.
  f_equal; [repeat f_equal; lia|].
  apply list_eq. intros n. rewrite !lookup_map.
  destruct (decide (n < h)) as [Hn|Hn].
  - rewrite lookup_seq_lt, lookup_slice by exact Hn.
    destruct (lookup_lt_is_Some_2 (data (pixels i)) (y1 + n) ltac:(lia)) as [row Hrow].
    rewrite Hrow. cbn [fmap option_fmap option_map mbind option_bind]. f_equal.
    rewrite Hrow. cbn [mbind option_bind].
    rewrite Forall_lookup in Hrows. destruct (Hrows _ row Hrow) as [Hl _].
    apply slice_as_lookups. lia.
  - rewrite lookup_seq_ge by lia. unfold slice at 2. rewrite lookup_take_ge by lia.
    reflexivity.
Qed.

(** The slice of a whole array is the array. *)
Lemma getitem_window_full (a : ndarray) (d0 d1 d2 : nat) :
  shape a = (d0, d1, d2) -> well_shaped a = true ->
  getitem_window a 0 d0 0 d1 = a.
Proof.
  intros Hs Hw.
  pose proof (proj1 (well_shaped_spec _ d0 d1 d2 Hs) Hw) as [Hlen Hrows].
  destruct a as [sh dt]. cbn [shape data] in *. subst sh.
  unfold getitem_window. cbn [shape data]. f_equal; [repeat f_equal; lia|].
  rewrite <- Hlen, slice_all.
  rewrite <- (map_id dt) at 2. apply map_ext_Forall.
  eapply Forall_impl; [exact Hrows|]. intros row [Hl _]. cbv beta.
  rewrite <- Hl. apply slice_all.
Qed.

Lemma uniform_clip_arrays (a0 : ndarray) (s0 : nat * nat * nat) (clip : list frame) :
  Forall (fun f => same_class (NdArray a0) f = true /\ frame_well_shaped f = true
                   /\ frame_shape f = Some s0) clip ->
  Forall (fun f => exists a, f = NdArray a /\ well_shaped a = true /\ shape a = s0) clip.
Proof.
  intros Hall. eapply Forall_impl; [exact Hall|]. intros f (Hc & Hw & Hs).
  destruct f as [a|i|]; [|discriminate Hc|discriminate Hc].
  cbn in Hw, Hs. injection Hs as Hs. eauto.
Qed.

Lemma uniform_clip_images (i0 : image) (s0 : nat * nat * nat) (clip : list frame) :
  Forall (fun f => same_class (PILImage i0) f = true /\ frame_well_shaped f = true
                   /\ frame_shape f = Some s0) clip ->
  Forall (fun f => exists i, f = PILImage i /\ well_shaped (pixels i) = true
                             /\ shape (pixels i) = s0) clip.
Proof.
  intros Hall. eapply Forall_impl; [exact Hall|]. intros f (Hc & Hw & Hs).
  destruct f as [a|i|]; [discriminate Hc| |discriminate Hc].
  cbn in Hw, Hs. injection Hs as Hs. eauto.
Qed.


Section RandomCropMore.

Context {S : Type} `{RandomGen S}.

(** X6: a crop of the size of the frames is no crop. On a clip of the
    data model whose frames have height [im_h] and width [im_w],
    [RandomCrop((im_h, im_w))] returns the clip it was given (both
    draws are from the range [0, 0]). *)
Theorem RandomCrop_full_size (clip : list frame) (first : frame) (im_h im_w : nat)
    (g : S) :
  uniform_clip clip = true ->
  getitem0 clip = Ok first ->
  RandomCrop.first_dims first = Ok (im_h, im_w) ->
  fst (RandomCrop.call (RandomCrop.init (im_h, im_w)) clip g) = Ok clip.
Proof.
  intros Hu Hfirst Hdims.
  destruct (uniform_clip_spec clip Hu) as (f0 & rest & s0 & -> & Hs0 & Hall).
  cbn [getitem0] in Hfirst. injection Hfirst as <-.
  unfold RandomCrop.call. cbn [RandomCrop.size getitem0 mbind result_bind].
  rewrite Hdims. cbn [mbind result_bind].
  rewrite !Nat.ltb_irrefl. cbn [orb]. rewrite !Z.sub_diag.
  destruct (random_randint_range 0 0 g ltac:(lia)) as (x1 & Hx1 & Hrx).
  destruct (random_randint 0 0 g) as [r1 g1]. cbn [fst] in Hx1; subst r1.
  destruct (random_randint_range 0 0 g1 ltac:(lia)) as (y1 & Hy1 & Hry).
  destruct (random_randint 0 0 g1) as [r2 g2]. cbn [fst] in Hy1; subst r2.
  assert (x1 = 0%Z) as -> by lia. assert (y1 = 0%Z) as -> by lia.
  change (Z.to_nat 0) with 0. cbn [fst plus].
  destruct f0 as [a0|i0|]; [| |discriminate].
  - cbn in Hs0, Hdims. destruct (shape a0) as [[d0 d1] d2] eqn:Hsa.
    injection Hdims as -> ->. injection Hs0 as <-.
    apply comprehension_same. apply uniform_clip_arrays in Hall.
    eapply Forall_impl; [exact Hall|]. intros f (a & -> & Hw & Hs).
    cbn [getitem_obj]. by rewrite (getitem_window_full a im_h im_w d2).
  - cbn in Hs0, Hdims. unfold image_size in Hdims.
    destruct (shape (pixels i0)) as [[d0 d1] d2] eqn:Hsa.
    injection Hdims as -> ->. injection Hs0 as <-.
    apply comprehension_same. apply uniform_clip_images in Hall.
    eapply Forall_impl; [exact Hall|]. intros f (i & -> & Hw & Hs).
    cbn [crop_obj]. do 2 f_equal.
    pose proof (image_crop_window i im_h im_w d2 0 0 im_w im_h Hs Hw
                  ltac:(lia) ltac:(lia)) as Hcrop.
    cbn [plus] in Hcrop. rewrite (getitem_window_full _ im_h im_w d2 Hs Hw) in Hcrop.
    destruct (image_crop i (0, 0, im_w, im_h)) as [p]. destruct i as [pi].
    cbn [pixels] in Hcrop. by rewrite Hcrop.
Qed.



(** X10: RandomCrop either draws nothing or draws [x1] and then [y1].
    When it draws nothing it raises IndexError (empty clip), TypeError
    (first frame of an unsupported class) or ValueError (crop larger
    than the first frame); otherwise the crop fits and the generator
    state it leaves is the one after the two draws, whether the
    comprehension over the frames returns or raises. *)
Theorem RandomCrop_draws (h w : nat) (clip : list frame) (g : S) :
  (exists e, RandomCrop.call (RandomCrop.init (h, w)) clip g = (Raise e, g) /\
     (e = IndexError \/ e = TypeError \/ e = ValueError)) \/
  (exists first im_h im_w x1 g1 y1 g2,
     clip !! 0 = Some first /\
     RandomCrop.first_dims first = Ok (im_h, im_w) /\ h <= im_h /\ w <= im_w /\
     random_randint 0 (Z.of_nat im_w - Z.of_nat w) g = (Ok x1, g1) /\
     random_randint 0 (Z.of_nat im_h - Z.of_nat h) g1 = (Ok y1, g2) /\
     snd (RandomCrop.call (RandomCrop.init (h, w)) clip g) = g2).
Proof.
  unfold RandomCrop.call. cbn [RandomCrop.size].
  destruct clip as [|f0 rest]; [left; exists IndexError; auto|].
  cbn [getitem0 mbind result_bind].
  destruct (RandomCrop.first_dims f0) as [[im_h im_w]|e] eqn:Hdims;
    cbn [mbind result_bind].
  2:{ left. exists e. split; [reflexivity|].
      destruct f0 as [a|i|]; cbn in Hdims.
      - destruct (shape a) as [[? ?] ?]; discriminate.
      - unfold image_size in Hdims. destruct (shape (pixels i)) as [[? ?] ?]; discriminate.
      - injection Hdims as <-. auto. }
  destruct (Nat.ltb_spec im_w w) as [?|Hw]; [left; exists ValueError; auto|].
  destruct (Nat.ltb_spec im_h h) as [?|Hh]; [left; exists ValueError; auto|].
  cbn [orb]. right.
  destruct (random_randint_range 0 (Z.of_nat im_w - Z.of_nat w) g ltac:(lia))
    as (x1 & Hx1 & _).
  destruct (random_randint 0 (Z.of_nat im_w - Z.of_nat w) g) as [r1 g1] eqn:Hd1.
  cbn [fst] in Hx1; subst r1.
  destruct (random_randint_range 0 (Z.of_nat im_h - Z.of_nat h) g1 ltac:(lia))
    as (y1 & Hy1 & _).
  destruct (random_randint 0 (Z.of_nat im_h - Z.of_nat h) g1) as [r2 g2] eqn:Hd2.
  cbn [fst] in Hy1; subst r2.
  exists f0, im_h, im_w, x1, g1, y1, g2. repeat split; try reflexivity; try assumption; lia.
Qed.

End RandomCropMore.

(** ** Mirrors *)

Lemma np_fliplr_involutive (a : ndarray) : np_fliplr (np_fliplr a) = a.
Proof.
  destruct a as [sh dt]. unfold np_fliplr. cbn [shape data]. f_equal.
  rewrite map_map. rewrite <- (map_id dt) at 2.
  apply map_ext. intros row. apply rev_involutive.
Qed.

Lemma mirror_involutive (f : frame) : mirror (mirror f) = f.
Proof.
  destruct f as [a|[p]|]; cbn [mirror]; [| |reflexivity].
  - by rewrite np_fliplr_involutive.
  - unfold image_flip_left_right. cbn [pixels]. by rewrite np_fliplr_involutive.
Qed.

Lemma one_class_spec (clip : list frame) :
  one_class clip = true ->
  exists f0 rest, clip = f0 :: rest /\ Forall (fun f => same_class f0 f = true) clip.
Proof.
  destruct clip as [|f0 rest]; [discriminate|]. cbn [one_class]. intros Hc.
  exists f0, rest. split; [reflexivity|].
  apply Is_true_true, forallb_True in Hc.
  eapply Forall_impl; [exact Hc|]. intros f Hf. by apply Is_true_true.
Qed.

Lemma one_class_mirror (clip : list frame) :
  one_class clip = true -> one_class (map mirror clip) = true.
Proof.
  intros Hc. destruct (one_class_spec clip Hc) as (f0 & rest & -> & Hall).
  cbn [map one_class]. apply Is_true_true, forallb_True.
  change (mirror f0 :: map mirror rest) with (map mirror (f0 :: rest)).
  apply List.Forall_map. eapply Forall_impl; [exact Hall|].
  intros f Hf. apply Is_true_true. destruct f0, f; try discriminate; reflexivity.
Qed.

Section FlipMore.

Context {S : Type} `{RandomGen S}.

(** What the flip branch returns on a clip of one class. *)
Lemma RandomHorizontalFlip_flipped (clip : list frame) (g : S) :
  one_class clip = true ->
  (fst (random_random g) < 1 # 2)%Q ->
  RandomHorizontalFlip.call clip g = (Ok (map mirror clip), snd (random_random g)).
Proof.
  intros Hc Hu. destruct (one_class_spec clip Hc) as (f0 & rest & -> & Hall).
  unfold RandomHorizontalFlip.call.
  destruct (random_random g) as [u g1]. cbn [fst snd] in *.
  destruct (Qlt_le_dec u (1 # 2)) as [_|Hle]; [|exfalso; exact (Qlt_not_le _ _ Hu Hle)].
  cbn [getitem0 mbind result_bind]. f_equal.
  destruct f0 as [a0|i0|].
  - rewrite <- (map_id (NdArray a0 :: rest)) at 1.
    rewrite (comprehension_commute np_fliplr_obj (fun f => Ok f) id mirror).
    + by rewrite comprehension_same by (apply Forall_forall; auto).
    + eapply Forall_impl; [exact Hall|]. intros f Hf.
      destruct f; try discriminate Hf. reflexivity.
  - rewrite <- (map_id (PILImage i0 :: rest)) at 1.
    rewrite (comprehension_commute transpose_flip_obj (fun f => Ok f) id mirror).
    + by rewrite comprehension_same by (apply Forall_forall; auto).
    + eapply Forall_impl; [exact Hall|]. intros f Hf.
      destruct f; try discriminate Hf. reflexivity.
  - apply Forall_inv in Hall. discriminate Hall.
Qed.

(** X7: flipping twice gives the clip back. When both draws are below
    0.5, the pipeline of two RandomHorizontalFlip returns, for a clip
    of one supported class, the clip it was given. *)
Theorem RandomHorizontalFlip_twice (clip : list frame) (g : S) :
  let g1 := snd (random_random g) in
  one_class clip = true ->
  (fst (random_random g) < 1 # 2)%Q ->
  (fst (random_random g1) < 1 # 2)%Q ->
  Compose.call (Compose.init [RandomHorizontalFlip.call; RandomHorizontalFlip.call])
    clip g = (Ok clip, snd (random_random g1)).
Proof.
  intros g1 Hc Hu1 Hu2. unfold Compose.call. cbn [Compose.transforms Compose.loop].
  rewrite (RandomHorizontalFlip_flipped clip g Hc Hu1). fold g1.
  rewrite (RandomHorizontalFlip_flipped (map mirror clip) g1 (one_class_mirror _ Hc) Hu2).
  rewrite map_map. f_equal. f_equal.
  rewrite <- (map_id clip) at 2. apply map_ext. apply mirror_involutive.
Qed.


End FlipMore.

(** ** Pipelines *)


(** X11: a pipeline of two pipelines is the pipeline of their
    transforms, one list after the other. *)
Theorem Compose_nested {S V} (ts1 ts2 : list (Compose.transform S V)) (c : V) (g : S) :
  Compose.call
    (Compose.init [Compose.call (Compose.init ts1); Compose.call (Compose.init ts2)]) c g =
  Compose.call (Compose.init (ts1 ++ ts2)) c g.
Proof.
  unfold Compose.call. cbn [Compose.transforms Compose.loop].
  rewrite Compose_loop_app.
  destruct (Compose.loop ts1 c g) as [[c'|e] g']; [|reflexivity].
  destruct (Compose.loop ts2 c' g') as [[c''|e] g'']; reflexivity.
Qed.

(** X12: a pipeline ends at the first transform that raises. When the
    transforms before [t] return [c'] and [t] raises on [c'], the
    pipeline raises the exception of [t] and leaves the generator state
    [t] left, whatever the transforms after [t] are. *)
Theorem Compose_stops_at_first_exception {S V} (ts1 ts2 : list (Compose.transform S V))
    (t : Compose.transform S V) (c c' : V) (g g' g'' : S) (e : exception) :
  Compose.call (Compose.init ts1) c g = (Ok c', g') ->
  t c' g' = (Raise e, g'') ->
  Compose.call (Compose.init (ts1 ++ t :: ts2)) c g = (Raise e, g'').
Proof.
  unfold Compose.call. cbn [Compose.transforms]. intros H1 Ht.
  rewrite Compose_loop_app, H1. cbn [Compose.loop]. by rewrite Ht.
Qed.

Section PipelineMore.

Context {S : Type} `{RandomGen S} `{ResizeLib}.

Lemma apply_transform_length (t : clip_transform) (clip out : list frame) (g g' : S) :
  apply_transform t clip g = (Ok out, g') -> length out = length clip.
Proof.
  destruct t as [|self|self]; cbn [apply_transform].
  - unfold RandomHorizontalFlip.call.
    destruct (random_random g) as [u g1].
    destruct (Qlt_le_dec u (1 # 2)); [|by intros [= <- _]].
    intros [= Hout _]. destruct clip as [|first rest]; [discriminate|].
    cbn [getitem0 mbind result_bind] in Hout.
    destruct first; [| |discriminate]; eapply comprehension_length, Hout.
  - unfold Compose.pure, Scale.call. intros [= Hout _].
    destruct clip as [|first rest]; [discriminate|].
    cbn [getitem0 mbind result_bind] in Hout.
    destruct first; [| |discriminate]; eapply comprehension_length, Hout.
  - unfold RandomCrop.call. destruct (RandomCrop.size self) as [h w].
    destruct clip as [|first rest]; [discriminate|].
    cbn [getitem0 mbind result_bind].
    destruct (RandomCrop.first_dims first) as [[im_h im_w]|e];
      cbn [mbind result_bind]; [|discriminate].
    destruct ((im_w <? w) || (im_h <? h)); [discriminate|].
    destruct (random_randint 0 _ g) as [[x1|e] g1]; [|discriminate].
    destruct (random_randint 0 _ g1) as [[y1|e] g2]; [|discriminate].
    intros [= Hout _].
    destruct first; [| |discriminate]; eapply comprehension_length, Hout.
Qed.

(** X13: a pipeline of flips, scalings and crops, of any length and in
    any order, returns as many frames as it was given, whenever it
    returns. *)
Theorem Compose_preserves_frame_count (ts : list clip_transform)
    (clip out : list frame) (g g' : S) :
  Compose.call (Compose.init (map apply_transform ts)) clip g = (Ok out, g') ->
  length out = length clip.
Proof.
  unfold Compose.call. cbn [Compose.transforms].
  revert clip g. induction ts as [|t ts IH]; intros clip g; cbn [map Compose.loop].
  - by intros [= <- _].
  - destruct (apply_transform t clip g) as [[clip'|e] g1] eqn:Ht; [|discriminate].
    intros Hrest. rewrite (IH _ _ Hrest). eapply apply_transform_length, Ht.
Qed.


End PipelineMore.

(** ** The further theorems at sample inputs *)



(** A clip of one array that ToTensor accepts. *)
Lemma ToTensor_returns_only_supported_witness :
  exists out,
    ToTensor.call ToTensor.default_init [NdArray two_pixel_array] = Ok out /\
    Forall (fun f => f <> OtherObject) [NdArray two_pixel_array].
Proof.
  destruct (ToTensor.call ToTensor.default_init [NdArray two_pixel_array])
    as [out|e] eqn:Hcall; [|discriminate Hcall].
  exists out. split; [reflexivity|].
  exact (proj1 (ToTensor_returns_only_supported ToTensor.default_init
                  [NdArray two_pixel_array] out Hcall)).
Defined.

(** An image of three bands in first place. *)
Lemma ToTensor_as_array_witness :
  let clip := [PILImage (mk_image two_pixel_array); NdArray two_pixel_array] in
  (forall i, clip !! 0 = Some (PILImage i) ->
     snd (shape (pixels i)) = ToTensor.channel_nb ToTensor.default_init) /\
  ToTensor.call ToTensor.default_init (map as_array clip) =
  ToTensor.call ToTensor.default_init clip.
Proof.
  intros clip.
  assert (Hfirst : forall i, clip !! 0 = Some (PILImage i) ->
            snd (shape (pixels i)) = ToTensor.channel_nb ToTensor.default_init).
  { intros i Hi. cbn in Hi. injection Hi as <-. reflexivity. }
  split; [exact Hfirst|].
  exact (ToTensor_as_array ToTensor.default_init clip Hfirst).
Defined.

(** An image of four bands. *)
Lemma ToTensor_image_bands_unchecked_witness :
  shape (pixels (mk_image (constant_array 2 2 4 0))) = (2, 2, 4) /\
  4 <> ToTensor.channel_nb ToTensor.default_init /\ 4 <> 1 /\
  ToTensor.call ToTensor.default_init [PILImage (mk_image (constant_array 2 2 4 0))] =
    Raise ValueError.
Proof.
  assert (Hs : shape (pixels (mk_image (constant_array 2 2 4 0))) = (2, 2, 4))
    by reflexivity.
  assert (Hc : 4 <> ToTensor.channel_nb ToTensor.default_init) by (simpl; lia).
  assert (H1 : 4 <> 1) by lia.
  split; [exact Hs|]. split; [exact Hc|]. split; [exact H1|].
  exact (ToTensor_image_bands_unchecked ToTensor.default_init _ [] 2 2 4 Hs Hc H1).
Defined.

(** A crop of size (1, 2) from a clip of two images of one row and two
    columns. *)
Lemma RandomCrop_full_size_witness :
  let clip := [PILImage (mk_image two_pixel_array);
               PILImage (mk_image (constant_array 1 2 3 9))] in
  uniform_clip clip = true /\
  getitem0 clip = Ok (PILImage (mk_image two_pixel_array)) /\
  RandomCrop.first_dims (PILImage (mk_image two_pixel_array)) = Ok (1, 2) /\
  fst (RandomCrop.call (RandomCrop.init (1, 2)) clip [5; 7]) = Ok clip.
Proof.
  intros clip.
  assert (Hu : uniform_clip clip = true) by reflexivity.
  assert (Hf : getitem0 clip = Ok (PILImage (mk_image two_pixel_array))) by reflexivity.
  assert (Hd : RandomCrop.first_dims (PILImage (mk_image two_pixel_array)) = Ok (1, 2))
    by reflexivity.
  split; [exact Hu|]. split; [exact Hf|]. split; [exact Hd|].
  exact (RandomCrop_full_size clip _ 1 2 [5; 7] Hu Hf Hd).
Defined.

(** Two draws of 0.2 and 0.3. *)
Lemma RandomHorizontalFlip_twice_witness :
  let clip := [NdArray two_pixel_array; NdArray (constant_array 1 2 3 9)] in
  one_class clip = true /\
  (fst (random_random [200%nat; 300%nat]) < 1 # 2)%Q /\
  (fst (random_random (snd (random_random [200%nat; 300%nat]))) < 1 # 2)%Q /\
  Compose.call (Compose.init [RandomHorizontalFlip.call; RandomHorizontalFlip.call])
    clip [200; 300] = (Ok clip, []).
Proof.
  intros clip.
  assert (Hc : one_class clip = true) by reflexivity.
  assert (H1 : (fst (random_random [200%nat; 300%nat]) < 1 # 2)%Q) by reflexivity.
  assert (H2 : (fst (random_random (snd (random_random [200%nat; 300%nat]))) < 1 # 2)%Q)
    by reflexivity.
  split; [exact Hc|]. split; [exact H1|]. split; [exact H2|].
  exact (RandomHorizontalFlip_twice clip [200; 300] Hc H1 H2).
Defined.



(** A flip that is not taken, a crop that is too high, a scaling that
    is never reached. *)
Lemma Compose_stops_at_first_exception_witness :
  let clip := [NdArray two_pixel_array] in
  Compose.call (Compose.init [RandomHorizontalFlip.call]) clip [700] = (Ok clip, []) /\
  RandomCrop.call (RandomCrop.init (2, 1)) clip [] = (Raise ValueError, []) /\
  Compose.call
    (Compose.init ([RandomHorizontalFlip.call] ++
                   RandomCrop.call (RandomCrop.init (2, 1)) ::
                   [Compose.pure (Scale.call (Scale.default_init (1, 1)))]))
    clip [700] = (Raise ValueError, []).
Proof.
  intros clip.
  assert (H1 : Compose.call (Compose.init [RandomHorizontalFlip.call]) clip [700]
               = (Ok clip, [])) by reflexivity.
  assert (H2 : RandomCrop.call (RandomCrop.init (2, 1)) clip []
               = (Raise ValueError, ([] : list nat))) by reflexivity.
  split; [exact H1|]. split; [exact H2|].
  exact (Compose_stops_at_first_exception [RandomHorizontalFlip.call]
           [Compose.pure (Scale.call (Scale.default_init (1, 1)))]
           (RandomCrop.call (RandomCrop.init (2, 1))) clip clip [700] [] []
           ValueError H1 H2).
Defined.

(** A scaling, a flip and a crop of a clip of two arrays. *)
Lemma Compose_preserves_frame_count_witness :
  let clip := [NdArray two_pixel_array; NdArray (constant_array 1 2 3 9)] in
  let ts := [Rescale (Scale.default_init (2, 2)); Flip; Crop (RandomCrop.init (1, 1))] in
  exists out g',
    Compose.call (Compose.init (map apply_transform ts)) clip [200; 5; 7] = (Ok out, g') /\
    length out = length clip.
Proof.
  intros clip ts.
  destruct (Compose.call (Compose.init (map apply_transform ts)) clip [200; 5; 7])
    as [[out|e] g'] eqn:Hcall; [|discriminate Hcall].
  exists out, g'. split; [reflexivity|].
  exact (Compose_preserves_frame_count ts clip out [200; 5; 7] g' Hcall).
Defined.


